(** * The rewst remote agent: command dispatch and execution pipeline

    A shallow embedding of [rewst_remote_agent.py].  Python values that
    come out of [json.loads] are dynamically typed and are modelled by
    [pyobj]; the coroutines of the agent are modelled in a small monad
    that threads the history of observable effects and carries Python's
    two ways of leaving a block early, [raise] and [return].

    What the agent does not contain itself (the platform name, the json
    codec, [repr], the child process, the IoT Hub transport, psutil and
    the HTTP client) is the interface [Runtime]. *)

From Stdlib Require Import String Ascii List ZArith Bool Lia DecimalString.
From Stdlib Require Import Floats.SpecFloat.
Import ListNotations.

Set Warnings "-register-all".
Open Scope string_scope.
Open Scope list_scope.

(** ** Text *)

Module Text.

(** The line feed, written [\n] in the source. *)
Definition nl : string := String (ascii_of_nat 10) EmptyString.

(** The double quote character. *)
Definition dquote : string := String (ascii_of_nat 34) EmptyString.

(** [needle in hay] on two [str] values. *)
Fixpoint contains (needle hay : string) : bool :=
  prefix needle hay ||
  match hay with
  | EmptyString => false
  | String _ rest => contains needle rest
  end.

(** [s.replace(old, new)] for one-character [old] and [new]. *)
Fixpoint replace_char (old new : ascii) (s : string) : string :=
  match s with
  | EmptyString => EmptyString
  | String c rest =>
      String (if Ascii.eqb c old then new else c) (replace_char old new rest)
  end.

(** [str.isspace] on the ASCII range: TAB, LF, VT, FF, CR, the four
    separators FS, GS, RS, US, and the blank.  A text is held as its
    UTF-8 bytes; the white space Unicode has beyond ASCII is not
    recognised here. *)
Definition is_space (c : ascii) : bool :=
  let n := nat_of_ascii c in
  (Nat.leb 9 n && Nat.leb n 13) || (Nat.leb 28 n && Nat.leb n 32).

Fixpoint lstrip (s : string) : string :=
  match s with
  | EmptyString => EmptyString
  | String c rest => if is_space c then lstrip rest else s
  end.

Fixpoint rstrip (s : string) : string :=
  match s with
  | EmptyString => EmptyString
  | String c rest =>
      match rstrip rest with
      | EmptyString => if is_space c then EmptyString else String c EmptyString
      | kept => String c kept
      end
  end.

(** [s.strip()] *)
Definition strip (s : string) : string := rstrip (lstrip s).

End Text.

(** ** Python values *)

(** The values [json.loads] can produce; [None] and [str] are also what
    the agent passes around itself.  A [dict] keeps its insertion order. *)
Inductive pyobj : Type :=
| PyNone
| PyBool (b : bool)
| PyInt (z : Z)
| PyFloat (f : spec_float)
| PyStr (s : string)
| PyList (l : list pyobj)
| PyDict (d : list (string * pyobj)).

Inductive exn : Type :=
| NameError (name : string)
| TypeError (msg : string)
| AttributeError (msg : string)
| KeyError (key : string)
| JSONDecodeError (msg : string)
| TransportError (msg : string).

Module Py.

Definition type_name (v : pyobj) : string :=
  match v with
  | PyNone => "NoneType"
  | PyBool _ => "bool"
  | PyInt _ => "int"
  | PyFloat _ => "float"
  | PyStr _ => "str"
  | PyList _ => "list"
  | PyDict _ => "dict"
  end.

(** Truth value of an object, as [if v:] tests it. *)
Definition truthy (v : pyobj) : bool :=
  match v with
  | PyNone => false
  | PyBool b => b
  | PyInt z => negb (Z.eqb z 0)
  | PyFloat f => match f with S754_zero _ => false | _ => true end
  | PyStr s => negb (String.eqb s "")
  | PyList l => match l with [] => false | _ => true end
  | PyDict d => match d with [] => false | _ => true end
  end.

(** Truth value of an argument that is [None] or a [str]. *)
Definition truthy_opt (o : option string) : bool :=
  match o with
  | Some s => negb (String.eqb s "")
  | None => false
  end.

(** [o or default] for such an argument. *)
Definition or_else (o : option string) (default : string) : string :=
  match o with
  | Some s => if String.eqb s "" then default else s
  | None => default
  end.

(** How an f-string renders an argument that is [None] or a [str]. *)
Definition format_opt (o : option string) : string :=
  match o with
  | Some s => s
  | None => "None"
  end.

Definition is_str (s : string) (v : pyobj) : bool :=
  match v with
  | PyStr t => String.eqb s t
  | _ => false
  end.

(** First binding of a key, [None] when the key is absent. *)
Fixpoint lookup (key : string) (d : list (string * pyobj)) : option pyobj :=
  match d with
  | [] => None
  | (k, v) :: rest => if String.eqb key k then Some v else lookup key rest
  end.

(** The value [d.get(key, default)] has. *)
Definition get_default (key : string) (default : pyobj) (d : list (string * pyobj)) : pyobj :=
  match lookup key d with
  | Some x => x
  | None => default
  end.

End Py.

(** ** Effects *)

(** The argument tuple [executor.submit] receives along with
    [run_handle_commands]. *)
Record task : Type := Task {
  task_commands : pyobj;
  task_post_id : pyobj;
  task_rewst_engine_host : option string;
  task_interpreter : option string;
  task_interpreter_delimiter : pyobj
}.

(** What the agent does to the outside, in the order it does it. *)
Inductive event : Type :=
| Print (line : string)
| SendMessage (payload : string)          (* device_client.send_message *)
| Spawn (command : string)                (* asyncio.create_subprocess_shell *)
| HttpPost (url : string) (body : pyobj)  (* httpx client.post *)
| Submit (t : task)                       (* executor.submit *)
| Sleep (seconds : Z).                    (* asyncio.sleep *)

Definition history : Type := list event.

(** How a block of statements ends. *)
Inductive outcome (A : Type) : Type :=
| Normal (a : A)
| Raised (e : exn)
| Returned (v : pyobj).

Arguments Normal {A} a.
Arguments Raised {A} e.
Arguments Returned {A} v.

Definition M (A : Type) : Type := history -> history * outcome A.

Definition ret {A} (a : A) : M A := fun h => (h, Normal a).

Definition bind {A B} (c : M A) (k : A -> M B) : M B := fun h =>
  match c h with
  | (h', Normal a) => k a h'
  | (h', Raised e) => (h', Raised e)
  | (h', Returned v) => (h', Returned v)
  end.

Definition raise {A} (e : exn) : M A := fun h => (h, Raised e).

(** The statement [return v]. *)
Definition return_ {A} (v : pyobj) : M A := fun h => (h, Returned v).

Definition emit (e : event) : M unit := fun h => (h ++ [e], Normal tt).

(** A function body seen from its caller: [return v] yields [v], running
    off the end yields [None]. *)
Definition py_def (body : M unit) : M pyobj := fun h =>
  match body h with
  | (h', Normal _) => (h', Normal PyNone)
  | (h', Raised e) => (h', Raised e)
  | (h', Returned v) => (h', Normal v)
  end.

(** [try: body  except json.JSONDecodeError as e: handler(str(e))] *)
Definition try_except_JSONDecodeError {A} (body : M A) (handler : string -> M A) : M A :=
  fun h =>
    match body h with
    | (h', Raised (JSONDecodeError msg)) => handler msg h'
    | r => r
    end.

Declare Scope py_scope.
Delimit Scope py_scope with py.
Notation "x <- c ;; k" := (bind c (fun x => k))
  (at level 61, c at next level, right associativity) : py_scope.
Notation "c ;; k" := (bind c (fun _ => k))
  (at level 61, right associativity) : py_scope.
Open Scope py_scope.

Definition print (line : string) : M unit := emit (Print line).

(** ** The runtime the agent runs on *)

Class Runtime : Type := {
  (** [platform.system()], read once at import (line 16). *)
  os_type : string;
  (** [json.loads] on a text: the value, or the message of the
      [JSONDecodeError]. *)
  json_loads : string -> pyobj + string;
  json_dumps : pyobj -> string;
  (** [str()] of the values that are neither [None], [bool] nor [str]. *)
  py_repr : pyobj -> string;
  (** Decoded standard output of the child spawned for a command line. *)
  child_stdout : history -> string -> string;
  (** [device_client.send_message]: [None] when the payload went out,
      the error text when the call raises. *)
  transport_send : history -> string -> option string;
  (** [psutil.cpu_percent(interval=1)] and
      [psutil.virtual_memory().percent]. *)
  cpu_percent : history -> spec_float;
  memory_percent : history -> spec_float;
  (** Status code and body text of the response to a POST. *)
  http_response : history -> string -> pyobj -> Z * string;
  (** The engine host of [config.json]. *)
  config_rewst_engine_host : string
}.

(** ** The agent *)

Section Agent.

Context {RT : Runtime}.

(** *** Primitives of the Python runtime *)

(** How an f-string renders a value. *)
Definition py_str (v : pyobj) : string :=
  match v with
  | PyNone => "None"
  | PyBool true => "True"
  | PyBool false => "False"
  | PyStr s => s
  | _ => py_repr v
  end.

(** [s + v] with a [str] on the left. *)
Definition py_add_str (s : string) (v : pyobj) : M pyobj :=
  match v with
  | PyStr t => ret (PyStr (s ++ t))
  | _ =>
      raise (TypeError ("can only concatenate str (not " ++ Text.dquote
                          ++ Py.type_name v ++ Text.dquote ++ ") to str"))
  end.

(** ["key" in v] *)
Definition py_contains (key : string) (v : pyobj) : M bool :=
  match v with
  | PyDict d => ret (match Py.lookup key d with Some _ => true | None => false end)
  | PyList l => ret (existsb (Py.is_str key) l)
  | PyStr s => ret (Text.contains key s)
  | _ =>
      raise (TypeError ("argument of type '" ++ Py.type_name v
                          ++ "' is not iterable"))
  end.

(** [v["key"]]; it is evaluated only after ["key" in v] held. *)
Definition py_getitem (v : pyobj) (key : string) : M pyobj :=
  match v with
  | PyDict d =>
      match Py.lookup key d with
      | Some x => ret x
      | None => raise (KeyError key)
      end
  | PyList _ => raise (TypeError "list indices must be integers or slices, not str")
  | PyStr _ => raise (TypeError "string indices must be integers, not 'str'")
  | _ => raise (TypeError ("'" ++ Py.type_name v ++ "' object is not subscriptable"))
  end.

(** [v.get("key", default)] *)
Definition py_get (v : pyobj) (key : string) (default : pyobj) : M pyobj :=
  match v with
  | PyDict d => ret (Py.get_default key default d)
  | _ =>
      raise (AttributeError ("'" ++ Py.type_name v
                               ++ "' object has no attribute 'get'"))
  end.

(** [v.replace(":", "/")] *)
Definition py_replace_colon (v : pyobj) : M string :=
  match v with
  | PyStr s => ret (Text.replace_char ":"%char "/"%char s)
  | _ =>
      raise (AttributeError ("'" ++ Py.type_name v
                               ++ "' object has no attribute 'replace'"))
  end.

(** [json.loads(v)] *)
Definition py_json_loads (v : pyobj) : M pyobj :=
  match v with
  | PyStr s =>
      match json_loads s with
      | inl x => ret x
      | inr msg => raise (JSONDecodeError msg)
      end
  | _ =>
      raise (TypeError ("the JSON object must be str, bytes or bytearray, not "
                          ++ Py.type_name v))
  end.

(** Line 15. *)
Definition status_update_checkin_time : Z := 600.

(** The data names bound at module level once [main] has run.  The
    other names of the module scope are bound to modules, functions,
    the executor and the device client; the model reads none of
    them by name. *)
Definition module_globals : list (string * pyobj) :=
  [ ("status_update_checkin_time", PyInt status_update_checkin_time);
    ("os_type", PyStr os_type);
    ("rewst_engine_host", PyStr config_rewst_engine_host) ].

(** Reading a name that the enclosing function never assigns. *)
Definition load_global (name : string) : M pyobj :=
  match Py.lookup name module_globals with
  | Some v => ret v
  | None => raise (NameError name)
  end.

(** [await device_client.send_message(payload)] *)
Definition send_message (payload : string) : M unit := fun h =>
  match transport_send h payload with
  | None => (h ++ [SendMessage payload], Normal tt)
  | Some msg => (h ++ [SendMessage payload], Raised (TransportError msg))
  end.

(** [await client.post(url, json=body)] *)
Definition http_post (url : option string) (body : pyobj) : M (Z * string) :=
  match url with
  | Some u => fun h => (h ++ [HttpPost u body], Normal (http_response h u body))
  | None => raise (TypeError "Invalid type for url")
  end.

(** *** [execute_commands], lines 81-137 *)

(** Lines 83-88. *)
Definition default_interpreter (os : string) : string :=
  if String.eqb os "windows" then "powershell"
  else if String.eqb os "darwin" then "/bin/zsh"
  else "/bin/bash".

(** Line 89: [interpreter_override or default_interpreter]. *)
Definition resolve_interpreter (os : string) (interpreter_override : option string) : string :=
  Py.or_else interpreter_override (default_interpreter os).

(** Lines 95-98. *)
Definition powershell_preamble (post_url : option string) : string :=
  "[Net.ServicePointManager]::SecurityProtocol = [Net.SecurityProtocolType]::Tls12"
    ++ Text.nl ++ "$post_url = '" ++ Py.format_opt post_url ++ "'" ++ Text.nl.

(** Lines 94-100: the value of [commands] from line 101 on. *)
Definition prepend_preamble (interpreter : string) (post_url : option string)
    (commands : pyobj) : M pyobj :=
  if Text.contains "powershell" interpreter
  then py_add_str (powershell_preamble post_url) commands
  else ret commands.

(** The same for a [commands] that is a text. *)
Definition prepared_text (interpreter : string) (post_url : option string)
    (c : string) : string :=
  if Text.contains "powershell" interpreter
  then (powershell_preamble post_url ++ c)%string
  else c.

(** Lines 103-108: the value of [command] before line 109. *)
Definition frame_command (interpreter : string) (interpreter_override : option string)
    (commands : pyobj) : pyobj :=
  if Py.truthy_opt interpreter_override
  then PyStr (interpreter ++ " -c " ++ Text.dquote ++ py_str commands ++ Text.dquote)
  else commands.

(** Lines 82-108: the interpreter and the command the function has
    prepared when it reaches line 109. *)
Definition prepare_command (commands : pyobj) (post_url interpreter_override : option string)
    : M (string * pyobj) :=
  let interpreter := resolve_interpreter os_type interpreter_override in
  commands <- prepend_preamble interpreter post_url commands ;;
  ret (interpreter, frame_command interpreter interpreter_override commands).

(** Lines 111-120: spawn the child, wait for it, return its trimmed
    standard output. *)
Definition run_and_return (command : string) : M unit := fun h =>
  let stdout := child_stdout h command in
  return_ (PyStr (Text.strip stdout)) (h ++ [Spawn command]).

(** Lines 122-137, the statements that follow the [return].  The
    function never assigns [command_output]. *)
Definition post_command_output (interpreter : string) (post_url : option string) : M unit :=
  message_data <-
    try_except_JSONDecodeError
      (command_output <- load_global "command_output" ;;
       py_json_loads command_output)
      (fun e =>
         print ("Error decoding command output as JSON: " ++ e) ;;
         command_output <- load_global "command_output" ;;
         ret (PyDict [ ("error", PyStr ("Error decoding command output as JSON: " ++ e));
                       ("output", command_output) ])) ;;
  if negb (Text.contains "powershell" interpreter) then
    print "Sending Results to Rewst via httpx." ;;
    response <- http_post post_url message_data ;;
    print ("POST request status: " ++ py_repr (PyInt (fst response))) ;;
    if negb (Z.eqb (fst response) 200)
    then print ("Error response: " ++ snd response)
    else ret tt
  else ret tt.

Definition execute_commands (commands : pyobj) (post_url interpreter_override : option string)
    (interpreter_delimiter : pyobj) : M pyobj :=
  py_def (
    prepared <- prepare_command commands post_url interpreter_override ;;
    let interpreter := fst prepared in
    (* line 109 *)
    all_commands <- load_global "all_commands" ;;
    let command :=
      (interpreter ++ " -c " ++ Text.dquote ++ py_str all_commands ++ Text.dquote)%string in
    run_and_return command ;;
    post_command_output interpreter post_url).

(** *** [handle_commands], lines 141-156 *)

(** Lines 142-144: [post_url], bound only when [post_id] is true. *)
Definition callback_url (post_id : pyobj) (rewst_engine_host : option string)
    : M (option string) :=
  if Py.truthy post_id then
    post_path <- py_replace_colon post_id ;;
    ret (Some ("https://" ++ Py.format_opt rewst_engine_host
                 ++ "/webhooks/custom/action/" ++ post_path)%string)
  else ret None.

(** Lines 147-156: what is done with the value [execute_commands]
    returned. *)
Definition report_output (command_output : pyobj) : M unit :=
  message_data <-
    try_except_JSONDecodeError
      (py_json_loads command_output)
      (fun e =>
         print ("Error decoding command output as JSON: " ++ e) ;;
         ret (PyDict [ ("error", PyStr ("Error decoding command output as JSON: " ++ e));
                       ("output", command_output) ])) ;;
  let message_json := json_dumps message_data in
  send_message message_json ;;
  print "Message sent!".

Definition handle_commands (commands post_id : pyobj)
    (rewst_engine_host interpreter_override : option string)
    (interpreter_delimiter : pyobj) : M pyobj :=
  py_def (
    post_url <- callback_url post_id rewst_engine_host ;;
    command_output <-
      execute_commands commands rewst_engine_host interpreter_override
        interpreter_delimiter ;;
    report_output command_output).

(** *** [run_handle_commands], lines 77-78 *)

Definition run_handle_commands (commands post_id : pyobj)
    (rewst_engine_host interpreter : option string)
    (interpreter_delimiter : pyobj) : M pyobj :=
  py_def (
    handle_commands commands post_id rewst_engine_host interpreter
      interpreter_delimiter ;;
    ret tt).

(** A worker of the pool running a submitted task. *)
Definition run_task (t : task) : M pyobj :=
  run_handle_commands (task_commands t) (task_post_id t)
    (task_rewst_engine_host t) (task_interpreter t)
    (task_interpreter_delimiter t).

(** *** [message_handler], lines 66-74 *)

(** [data] is the text of [message.data]. *)
Definition message_handler (data : string) : M pyobj :=
  py_def (
    print ("Received message: " ++ data) ;;
    message_data <- py_json_loads (PyStr data) ;;
    present <- py_contains "commands" message_data ;;
    if present : bool then
      commands <- py_getitem message_data "commands" ;;
      post_id <- py_get message_data "post_id" PyNone ;;
      interpreter_delimiter <-
        py_get message_data "interpreter_delimiter" (PyStr Text.nl) ;;
      print "Running commands" ;;
      emit (Submit (Task commands post_id None None interpreter_delimiter))
    else ret tt).

(** *** The heartbeat, lines 21-32 and 188-191 *)

(** Lines 23-28: the message built from the samples taken at [h]. *)
Definition status_payload (h : history) : string :=
  let status_data :=
    PyDict [ ("cpu_usage", PyFloat (cpu_percent h));
             ("memory_usage", PyFloat (memory_percent h)) ] in
  json_dumps status_data.

Definition sending : event := Print "Sending status update to IoT Hub...".

Definition send_status_update : M pyobj :=
  py_def (
    fun h =>
      let message_json := status_payload h in
      (emit sending ;;
       send_message message_json ;;
       print "Status update sent!") h).

(** The first [cycles] turns of the [while True] loop.  [Normal]
    means that these turns are done and the loop goes on; [Raised]
    means that the task has ended with that exception. *)
Fixpoint status_update_task (cycles : nat) : M unit :=
  match cycles with
  | O => ret tt
  | S rest =>
      send_status_update ;;
      emit (Sleep status_update_checkin_time) ;;
      status_update_task rest
  end.

End Agent.

(** ** Start-up: [load_config], [get_connection_string] and [main] *)

(** What start-up does besides the effects of the agent: records sent
    to the logger, and the life cycle of the device client. *)
Inductive action : Type :=
| Agent (e : event)
| LogError (msg : string)                     (* logging.error *)
| CreateClient (connection_string : string)   (* create_from_connection_string *)
| Connect                                     (* device_client.connect *)
| Disconnect                                  (* device_client.disconnect *)
| SetHandler                                  (* on_message_received = message_handler *)
| CreateTask.                                 (* asyncio.create_task(status_update_task()) *)

Definition journal : Type := list action.

(** The agent's own effects within a journal. *)
Fixpoint agent_history (j : journal) : history :=
  match j with
  | [] => []
  | Agent e :: rest => e :: agent_history rest
  | _ :: rest => agent_history rest
  end.

(** An exception of the program's own kind, or one raised by a library
    (the file system, the device client), known by its text. *)
Inductive fault : Type :=
| PyExn (e : exn)
| LibraryExn (msg : string).

(** [str(e)] *)
Definition fault_text (f : fault) : string :=
  match f with
  | PyExn (NameError name) => "name '" ++ name ++ "' is not defined"
  | PyExn (TypeError msg) => msg
  | PyExn (AttributeError msg) => msg
  | PyExn (KeyError key) => "'" ++ key ++ "'"
  | PyExn (JSONDecodeError msg) => msg
  | PyExn (TransportError msg) => msg
  | LibraryExn msg => msg
  end.

(** How a block of start-up ends: like a block of the agent, or by
    [exit(code)], or suspended on an event that nothing sets. *)
Inductive ending (A : Type) : Type :=
| Done (a : A)
| Fault (f : fault)
| Return (v : pyobj)
| Exit (code : Z)
| Waiting.

Arguments Done {A} a.
Arguments Fault {A} f.
Arguments Return {A} v.
Arguments Exit {A} code.
Arguments Waiting {A}.

Definition P (A : Type) : Type := journal -> journal * ending A.

Definition pret {A} (a : A) : P A := fun j => (j, Done a).

Definition pbind {A B} (c : P A) (k : A -> P B) : P B := fun j =>
  match c j with
  | (j', Done a) => k a j'
  | (j', Fault f) => (j', Fault f)
  | (j', Return v) => (j', Return v)
  | (j', Exit code) => (j', Exit code)
  | (j', Waiting) => (j', Waiting)
  end.

Definition act (a : action) : P unit := fun j => (j ++ [a], Done tt).

Definition p_raise {A} (f : fault) : P A := fun j => (j, Fault f).

Definition p_return {A} (v : pyobj) : P A := fun j => (j, Return v).

(** [exit(code)] *)
Definition exit {A} (code : Z) : P A := fun j => (j, Exit code).

(** [await stop_event.wait()] on an event that is never set. *)
Definition wait_forever {A} : P A := fun j => (j, Waiting).

(** A computation of the agent run within start-up: it sees the
    agent's effects so far and its new effects join the journal. *)
Definition lift {A} (c : M A) : P A := fun j =>
  let h := agent_history j in
  match c h with
  | (h', o) =>
      (j ++ map Agent (skipn (length h) h'),
       match o with
       | Normal a => Done a
       | Raised e => Fault (PyExn e)
       | Returned v => Return v
       end)
  end.

Definition p_def (body : P unit) : P pyobj := fun j =>
  match body j with
  | (j', Done _) => (j', Done PyNone)
  | (j', Return v) => (j', Done v)
  | (j', Fault f) => (j', Fault f)
  | (j', Exit code) => (j', Exit code)
  | (j', Waiting) => (j', Waiting)
  end.

(** [try: body  except Exception as e: handler(e)]; [exit] is no
    [Exception] and passes through. *)
Definition try_except_Exception {A} (body : P A) (handler : fault -> P A) : P A :=
  fun j =>
    match body j with
    | (j', Fault f) => handler f j'
    | r => r
    end.

(** [try: body  finally: final].  [final] runs however [body] ends and
    its own way of ending, unless normal, replaces that of [body]. *)
Definition try_finally {A} (body : P A) (final : option A -> P unit) : P A :=
  fun j =>
    match body j with
    | (j', Waiting) => (j', Waiting)
    | (j', r) =>
        let seen := match r with Done a => Some a | _ => None end in
        match final seen j' with
        | (j'', Done _) => (j'', r)
        | (j'', Fault f) => (j'', Fault f)
        | (j'', Return v) => (j'', Return v)
        | (j'', Exit code) => (j'', Exit code)
        | (j'', Waiting) => (j'', Waiting)
        end
    end.

Declare Scope startup_scope.
Delimit Scope startup_scope with startup.
Notation "x <- c ;; k" := (pbind c (fun x => k))
  (at level 61, c at next level, right associativity) : startup_scope.
Notation "c ;; k" := (pbind c (fun _ => k))
  (at level 61, right associativity) : startup_scope.

(** The machine the agent is started on. *)
Class Host : Type := {
  host_runtime :: Runtime;
  (** Opening and reading [config.json]: its text, or the text of the
      exception. *)
  config_file : string + string;
  (** [IoTHubDeviceClient.create_from_connection_string]: the text of
      the exception when the library refuses the string. *)
  client_create : string -> option string;
  (** [connect] and [disconnect]: the text of the exception when the
      call raises. *)
  client_connect : journal -> option string;
  client_disconnect : journal -> option string
}.

Section Startup.

Context {HOST : Host}.

Local Open Scope startup_scope.

Definition log_error (msg : string) : P unit := act (LogError msg).

(** *** [load_config], lines 35-54 *)

(** Lines 43-49. *)
Definition required_keys : list string :=
  [ "azure_iot_hub_host"; "device_id"; "shared_access_key";
    "rewst_engine_host"; "rewst_org_id" ].

(** Lines 37-38. *)
Definition read_config : P pyobj :=
  match config_file with
  | inl text => lift (py_json_loads (PyStr text))
  | inr msg => p_raise (LibraryExn msg)
  end.

(** Line 52: the record for a missing key. *)
Definition missing_line (key : string) : string :=
  ("Error: Missing '" ++ key ++ "' in configuration.")%string.

(** Lines 50-53, over the keys still to check. *)
Fixpoint check_required (keys : list string) (config : pyobj) : P unit :=
  match keys with
  | [] => pret tt
  | key :: rest =>
      present <- lift (py_contains key config) ;;
      if present : bool then check_required rest config
      else
        log_error (missing_line key) ;;
        p_return PyNone
  end.

(** The values that are no containers: [None], booleans, numbers. *)
Definition scalar (v : pyobj) : bool :=
  match v with
  | PyNone | PyBool _ | PyInt _ | PyFloat _ => true
  | _ => false
  end.

(** An object binds a key. *)
Definition bound (d : list (string * pyobj)) (key : string) : Prop :=
  Py.lookup key d <> None.

Definition load_config : P pyobj :=
  p_def (
    config <-
      try_except_Exception read_config
        (fun e =>
           log_error ("Error: " ++ fault_text e) ;;
           p_return PyNone) ;;
    check_required required_keys config ;;
    p_return config).

(** *** [get_connection_string], lines 57-63 *)

Definition get_connection_string (config : pyobj) : P pyobj :=
  p_def (
    host <- lift (py_getitem config "azure_iot_hub_host") ;;
    device <- lift (py_getitem config "device_id") ;;
    key <- lift (py_getitem config "shared_access_key") ;;
    let conn_str :=
      ("HostName=" ++ py_str host ++ ";DeviceId=" ++ py_str device
         ++ ";SharedAccessKey=" ++ py_str key)%string in
    p_return (PyStr conn_str)).

(** Lines 58-62 on an object: the text built from its three fields. *)
Definition connection_string_of (d : list (string * pyobj)) : string :=
  ("HostName=" ++ py_str (Py.get_default "azure_iot_hub_host" PyNone d)
     ++ ";DeviceId=" ++ py_str (Py.get_default "device_id" PyNone d)
     ++ ";SharedAccessKey=" ++ py_str (Py.get_default "shared_access_key" PyNone d))%string.

(** *** [main], lines 159-194 *)

Definition create_from_connection_string (connection_string : string) : P unit :=
  fun j =>
    match client_create connection_string with
    | None => (j ++ [CreateClient connection_string], Done tt)
    | Some msg => (j, Fault (LibraryExn msg))
    end.

Definition connect : P unit := fun j =>
  match client_connect j with
  | None => (j ++ [Connect], Done tt)
  | Some msg => (j ++ [Connect], Fault (LibraryExn msg))
  end.

Definition disconnect : P unit := fun j =>
  match client_disconnect j with
  | None => (j ++ [Disconnect], Done tt)
  | Some msg => (j ++ [Disconnect], Fault (LibraryExn msg))
  end.

(** Line 177: the payload of the test message. *)
Definition test_payload : string :=
  json_dumps (PyDict [("test_message", PyStr "Test message from device")]).

(** Lines 174-184.  The block of [try] and [except] leaves in [e] the
    exception it caught, if any. *)
Definition check_communication : P unit :=
  lift (print "Check mode: Sending a test message...") ;;
  _ <- try_finally
    (try_except_Exception
       (lift (send_message test_payload) ;;
        lift (print "Check mode: Communication test successful. Test message sent.") ;;
        pret None)
       (fun ex =>
          lift (print ("Check mode: Communication test failed. Could not send test message: "
                         ++ fault_text ex)) ;;
          pret (Some ex)))
    (fun seen =>
       let e := match seen with Some caught => caught | None => None end in
       disconnect ;;
       exit (match e with None => 0 | Some _ => 1 end)%Z) ;;
  pret tt.

(** Lines 187-194. *)
Definition serve : P unit :=
  act SetHandler ;;
  act CreateTask ;;
  wait_forever.

Definition main (check_mode : bool) : P pyobj :=
  p_def (
    config_data <- load_config ;;
    (match config_data with
     | PyNone => exit 1
     | _ => pret tt
     end) ;;
    connection_string <- get_connection_string config_data ;;
    rewst_engine_host <- lift (py_getitem config_data "rewst_engine_host") ;;
    rewst_org_id <- lift (py_getitem config_data "rewst_org_id") ;;
    create_from_connection_string (py_str connection_string) ;;
    lift (print "Connecting to IoT Hub...") ;;
    connect ;;
    lift (print "Connected!") ;;
    if check_mode then check_communication else serve).

End Startup.

(** ** Concrete runtimes for the closed examples *)

(** A json codec to run the examples with.  It covers the documents
    whose numbers are integers and whose strings are ASCII without
    [\u] escapes; it prints with the separators [json.dumps] uses by
    default. *)
Module ExampleJson.

Definition decimal (z : Z) : string := NilZero.string_of_int (Z.to_int z).

Definition backslash : ascii := ascii_of_nat 92.
Definition quote_mark : ascii := ascii_of_nat 34.

Definition hex_digit (n : nat) : ascii :=
  match get n "0123456789abcdef" with
  | Some c => c
  | None => "0"%char
  end.

Definition escape_char (c : ascii) : string :=
  let n := nat_of_ascii c in
  if Nat.eqb n 34 then String backslash Text.dquote
  else if Nat.eqb n 92 then String backslash (String backslash "")
  else if Nat.eqb n 10 then String backslash "n"
  else if Nat.eqb n 13 then String backslash "r"
  else if Nat.eqb n 9 then String backslash "t"
  else if Nat.eqb n 8 then String backslash "b"
  else if Nat.eqb n 12 then String backslash "f"
  else if Nat.ltb n 32 then
    String backslash
      (String "u" (String "0" (String "0"
         (String (hex_digit (n / 16)) (String (hex_digit (n mod 16)) "")))))
  else String c "".

Fixpoint escape (s : string) : string :=
  match s with
  | EmptyString => EmptyString
  | String c rest => (escape_char c ++ escape rest)%string
  end.

Definition quoted (s : string) : string :=
  (Text.dquote ++ escape s ++ Text.dquote)%string.

Fixpoint drop (n : nat) (s : string) : string :=
  match n, s with
  | S m, String _ rest => drop m rest
  | _, _ => s
  end.

(** Trailing zeros of a fraction, keeping one digit. *)
Fixpoint trim_zeros (s : string) : string :=
  match s with
  | EmptyString => EmptyString
  | String c rest =>
      match trim_zeros rest with
      | EmptyString => String c EmptyString
      | String d EmptyString =>
          if Ascii.eqb d "0" then String c EmptyString
          else String c (String d EmptyString)
      | kept => String c kept
      end
  end.

(** The exact decimal expansion of [m * 2^e]. *)
Definition finite_text (m : positive) (e : Z) : string :=
  if (0 <=? e)%Z then (decimal (Z.pos m * 2 ^ e) ++ ".0")%string
  else
    let k := (- e)%Z in
    let n := (Z.pos m * 5 ^ k)%Z in
    let unit := (10 ^ k)%Z in
    (decimal (n / unit) ++ "."
       ++ trim_zeros (drop 1 (decimal (unit + n mod unit))))%string.

Definition float_text (f : spec_float) : string :=
  match f with
  | S754_zero s => if s then "-0.0" else "0.0"
  | S754_infinity s => if s then "-Infinity" else "Infinity"
  | S754_nan => "NaN"
  | S754_finite s m e => ((if s then "-" else "") ++ finite_text m e)%string
  end.

Fixpoint dumps (v : pyobj) : string :=
  match v with
  | PyNone => "null"
  | PyBool true => "true"
  | PyBool false => "false"
  | PyInt z => decimal z
  | PyFloat f => float_text f
  | PyStr s => quoted s
  | PyList l =>
      ("[" ++ (fix items (l : list pyobj) : string :=
                 match l with
                 | [] => ""
                 | [x] => dumps x
                 | x :: rest => dumps x ++ ", " ++ items rest
                 end) l ++ "]")%string
  | PyDict d =>
      ("{" ++ (fix items (d : list (string * pyobj)) : string :=
                 match d with
                 | [] => ""
                 | [(k, x)] => quoted k ++ ": " ++ dumps x
                 | (k, x) :: rest => quoted k ++ ": " ++ dumps x ++ ", " ++ items rest
                 end) d ++ "}")%string
  end.

(** [repr] of an integer; the examples format no other value. *)
Definition repr (v : pyobj) : string :=
  match v with
  | PyInt z => decimal z
  | _ => dumps v
  end.

Definition is_ws (c : ascii) : bool :=
  let n := nat_of_ascii c in
  Nat.eqb n 32 || Nat.eqb n 9 || Nat.eqb n 10 || Nat.eqb n 13.

Fixpoint skip_ws (s : string) : string :=
  match s with
  | EmptyString => EmptyString
  | String c rest => if is_ws c then skip_ws rest else s
  end.

Definition digit_of (c : ascii) : option Z :=
  let n := nat_of_ascii c in
  if Nat.leb 48 n && Nat.leb n 57 then Some (Z.of_nat (n - 48)) else None.

Fixpoint digits (s : string) (acc : Z) : Z * string :=
  match s with
  | EmptyString => (acc, EmptyString)
  | String c rest =>
      match digit_of c with
      | Some d => digits rest (acc * 10 + d)%Z
      | None => (acc, s)
      end
  end.

Definition natural (s : string) : option (Z * string) :=
  match s with
  | EmptyString => None
  | String c rest =>
      match digit_of c with
      | Some 0%Z => Some (0%Z, rest)
      | Some d => Some (digits rest d)
      | None => None
      end
  end.

Definition starts_fraction (s : string) : bool :=
  match s with
  | String c _ => Ascii.eqb c "." || Ascii.eqb c "e" || Ascii.eqb c "E"
  | EmptyString => false
  end.

Definition number (s : string) : option (pyobj * string) :=
  let signed :=
    match s with
    | String "-" rest =>
        match natural rest with
        | Some (n, r) => Some ((- n)%Z, r)
        | None => None
        end
    | _ => natural s
    end in
  match signed with
  | Some (n, r) => if starts_fraction r then None else Some (PyInt n, r)
  | None => None
  end.

Definition unescape (c : ascii) : option ascii :=
  let n := nat_of_ascii c in
  if Nat.eqb n 34 then Some quote_mark
  else if Nat.eqb n 92 then Some backslash
  else if Ascii.eqb c "/" then Some "/"%char
  else if Ascii.eqb c "n" then Some (ascii_of_nat 10)
  else if Ascii.eqb c "r" then Some (ascii_of_nat 13)
  else if Ascii.eqb c "t" then Some (ascii_of_nat 9)
  else if Ascii.eqb c "b" then Some (ascii_of_nat 8)
  else if Ascii.eqb c "f" then Some (ascii_of_nat 12)
  else None.

Definition prepend (c : ascii) (r : option (string * string)) : option (string * string) :=
  match r with
  | Some (body, rest) => Some (String c body, rest)
  | None => None
  end.

(** The characters of a string literal after its opening quote. *)
Fixpoint string_body (s : string) : option (string * string) :=
  match s with
  | EmptyString => None
  | String c rest =>
      if Ascii.eqb c quote_mark then Some (EmptyString, rest)
      else if Ascii.eqb c backslash then
        match rest with
        | String e rest' =>
            match unescape e with
            | Some x => prepend x (string_body rest')
            | None => None
            end
        | EmptyString => None
        end
      else if Nat.ltb (nat_of_ascii c) 32 then None
      else prepend c (string_body rest)
  end.

(** A later binding of a key replaces the earlier one in place. *)
Fixpoint dict_set (key : string) (v : pyobj) (d : list (string * pyobj))
    : list (string * pyobj) :=
  match d with
  | [] => [(key, v)]
  | (k, x) :: rest =>
      if String.eqb key k then (k, v) :: rest else (k, x) :: dict_set key v rest
  end.

Section Containers.

Variable value : string -> option (pyobj * string).

(** The elements of an array, from the first one to the bracket. *)
Fixpoint elements (n : nat) (s : string) : option (list pyobj * string) :=
  match n with
  | O => None
  | S n' =>
      match value s with
      | Some (v, r) =>
          match skip_ws r with
          | String "," r' =>
              match elements n' r' with
              | Some (vs, r'') => Some (v :: vs, r'')
              | None => None
              end
          | String "]" r' => Some ([v], r')
          | _ => None
          end
      | None => None
      end
  end.

(** The members of an object, from the first key to the brace. *)
Fixpoint members (n : nat) (acc : list (string * pyobj)) (s : string)
    : option (list (string * pyobj) * string) :=
  match n with
  | O => None
  | S n' =>
      match skip_ws s with
      | String q r =>
          if Ascii.eqb q quote_mark then
            match string_body r with
            | Some (key, r1) =>
                match skip_ws r1 with
                | String ":" r2 =>
                    match value r2 with
                    | Some (v, r3) =>
                        let acc' := dict_set key v acc in
                        match skip_ws r3 with
                        | String "," r4 => members n' acc' r4
                        | String "}" r4 => Some (acc', r4)
                        | _ => None
                        end
                    | None => None
                    end
                | _ => None
                end
            | None => None
            end
          else None
      | EmptyString => None
      end
  end.

End Containers.

Fixpoint value (fuel : nat) (s : string) : option (pyobj * string) :=
  match fuel with
  | O => None
  | S fuel' =>
      match skip_ws s with
      | EmptyString => None
      | String c rest as t =>
          if Ascii.eqb c "[" then
            match skip_ws rest with
            | String "]" r => Some (PyList [], r)
            | _ =>
                match elements (value fuel') (String.length rest) rest with
                | Some (vs, r) => Some (PyList vs, r)
                | None => None
                end
            end
          else if Ascii.eqb c "{" then
            match skip_ws rest with
            | String "}" r => Some (PyDict [], r)
            | _ =>
                match members (value fuel') (String.length rest) [] rest with
                | Some (d, r) => Some (PyDict d, r)
                | None => None
                end
            end
          else if Ascii.eqb c quote_mark then
            match string_body rest with
            | Some (body, r) => Some (PyStr body, r)
            | None => None
            end
          else if prefix "null" t then Some (PyNone, drop 4 t)
          else if prefix "true" t then Some (PyBool true, drop 4 t)
          else if prefix "false" t then Some (PyBool false, drop 5 t)
          else if prefix "NaN" t then Some (PyFloat S754_nan, drop 3 t)
          else if prefix "Infinity" t then Some (PyFloat (S754_infinity false), drop 8 t)
          else if prefix "-Infinity" t then Some (PyFloat (S754_infinity true), drop 9 t)
          else number t
      end
  end.

Definition loads (s : string) : pyobj + string :=
  match value (S (String.length s)) s with
  | Some (v, rest) =>
      match skip_ws rest with
      | EmptyString => inl v
      | _ => inr "Extra data"
      end
  | None => inr "Expecting value"
  end.

End ExampleJson.

(** A Linux host with a working transport.  [platform.system()] answers
    with a capital letter there. *)
Definition linux_runtime : Runtime := {|
  os_type := "Linux";
  json_loads := ExampleJson.loads;
  json_dumps := ExampleJson.dumps;
  py_repr := ExampleJson.repr;
  child_stdout := fun _ _ => String.append "hello" Text.nl;
  transport_send := fun _ _ => None;
  cpu_percent := fun _ => S754_finite false 25 (-1);
  memory_percent := fun _ => S754_finite false 183 (-2);
  http_response := fun _ _ _ => (200%Z, "");
  config_rewst_engine_host := "h.example.com"
|}.

(** A host whose platform name is the one line 83 tests for. *)
Definition windows_runtime : Runtime := {|
  os_type := "windows";
  json_loads := ExampleJson.loads;
  json_dumps := ExampleJson.dumps;
  py_repr := ExampleJson.repr;
  child_stdout := fun _ _ => EmptyString;
  transport_send := fun _ _ => None;
  cpu_percent := fun _ => S754_zero false;
  memory_percent := fun _ => S754_finite false 183 (-2);
  http_response := fun _ _ _ => (200%Z, "");
  config_rewst_engine_host := "h.example.com"
|}.

Definition is_send (e : event) : bool :=
  match e with
  | SendMessage _ => true
  | _ => false
  end.

Definition is_http_post (e : event) : bool :=
  match e with
  | HttpPost _ _ => true
  | _ => false
  end.

Definition is_sleep (e : event) : bool :=
  match e with
  | Sleep _ => true
  | _ => false
  end.

Definition is_text (v : pyobj) : bool :=
  match v with
  | PyStr _ => true
  | _ => false
  end.

(** The payloads handed to the transport, oldest first. *)
Fixpoint sent_payloads (h : history) : list string :=
  match h with
  | [] => []
  | SendMessage p :: rest => p :: sent_payloads rest
  | _ :: rest => sent_payloads rest
  end.

(** A Linux host whose connection is lost after the first message: the
    transport accepts a payload only while nothing has been sent. *)
Definition flaky_runtime : Runtime := {|
  os_type := "Linux";
  json_loads := ExampleJson.loads;
  json_dumps := ExampleJson.dumps;
  py_repr := ExampleJson.repr;
  child_stdout := fun _ _ => EmptyString;
  transport_send := fun h _ => if existsb is_send h then Some "connection lost" else None;
  cpu_percent := fun _ => S754_finite false 25 (-1);
  memory_percent := fun _ => S754_finite false 183 (-2);
  http_response := fun _ _ _ => (200%Z, "");
  config_rewst_engine_host := "h.example.com"
|}.

(** Machines to start the agent on.  All run [linux_runtime]; they
    differ in what [config.json] holds and in what the device client
    does. *)
Definition config_fields : list (string * pyobj) :=
  [ ("azure_iot_hub_host", PyStr "hub.example.net");
    ("device_id", PyStr "agent-01");
    ("shared_access_key", PyStr "c2VjcmV0");
    ("rewst_engine_host", PyStr "h.example.com");
    ("rewst_org_id", PyStr "org-1") ].

Definition config_text : string := ExampleJson.dumps (PyDict config_fields).

Definition incomplete_fields : list (string * pyobj) :=
  [ ("azure_iot_hub_host", PyStr "hub.example.net");
    ("shared_access_key", PyStr "c2VjcmV0");
    ("rewst_org_id", PyStr "org-1") ].

Definition key_names : list pyobj :=
  [ PyStr "azure_iot_hub_host"; PyStr "device_id"; PyStr "shared_access_key";
    PyStr "rewst_engine_host"; PyStr "rewst_org_id" ].

Definition host_with (file : string + string)
    (create : option string) (connecting disconnecting : option string) : Host := {|
  host_runtime := linux_runtime;
  config_file := file;
  client_create := fun _ => create;
  client_connect := fun _ => connecting;
  client_disconnect := fun _ => disconnecting
|}.

Definition good_connection_string : string :=
  "HostName=hub.example.net;DeviceId=agent-01;SharedAccessKey=c2VjcmV0".

Definition good_host : Host := host_with (inl config_text) None None None.

Definition incomplete_host : Host :=
  host_with (inl (ExampleJson.dumps (PyDict incomplete_fields))) None None None.

Definition missing_file_host : Host :=
  host_with (inr "[Errno 2] No such file or directory: 'config.json'") None None None.

Definition null_host : Host := host_with (inl "null") None None None.

Definition array_host : Host :=
  host_with (inl (ExampleJson.dumps (PyList key_names))) None None None.

Definition refused_host : Host :=
  host_with (inl config_text) (Some "Invalid Connection String") None None.

Definition unreachable_host : Host :=
  host_with (inl config_text) None (Some "connection refused") None.

Definition stuck_host : Host :=
  host_with (inl config_text) None None (Some "disconnect timed out").

(** Messages and outputs for the examples, written as the texts the
    codec prints. *)
Definition ping_message : string :=
  ExampleJson.dumps (PyDict [("ping", PyInt 1)]).

Definition command_message : string :=
  ExampleJson.dumps
    (PyDict [("commands", PyStr "Get-Date"); ("post_id", PyStr "abc:123")]).

Definition delimited_message : string :=
  ExampleJson.dumps
    (PyDict [ ("commands", PyStr "Get-Date"); ("post_id", PyStr "abc:123");
              ("interpreter_delimiter", PyStr ";") ]).

Definition status_value : pyobj :=
  PyDict [("status", PyStr "ok"); ("count", PyInt 3)].

Definition status_output : string := ExampleJson.dumps status_value.

(** A command whose output is no json, as it arrives and as it is
    submitted. *)
Definition echo_message : string :=
  ExampleJson.dumps (PyDict [("commands", PyStr "echo hello")]).

Definition echo_task : task :=
  Task (PyStr "echo hello") PyNone None None (PyStr Text.nl).

(** A Linux host on which every child prints the json text
    [status_output] and a line feed. *)
Definition json_child_runtime : Runtime := {|
  os_type := "Linux";
  json_loads := ExampleJson.loads;
  json_dumps := ExampleJson.dumps;
  py_repr := ExampleJson.repr;
  child_stdout := fun _ _ => String.append status_output Text.nl;
  transport_send := fun _ _ => None;
  cpu_percent := fun _ => S754_finite false 25 (-1);
  memory_percent := fun _ => S754_finite false 183 (-2);
  http_response := fun _ _ _ => (200%Z, "");
  config_rewst_engine_host := "h.example.com"
|}.

(** A command whose output is json, as it arrives and as it is
    submitted. *)
Definition show_message : string :=
  ExampleJson.dumps (PyDict [("commands", PyStr "cat status.json")]).

Definition show_task : task :=
  Task (PyStr "cat status.json") PyNone None None (PyStr Text.nl).

(** ** Properties *)

(** Runs the monad's operations and leaves texts and histories folded. *)
Ltac step :=
  cbv beta iota zeta delta
    [bind ret raise return_ emit print py_def try_except_JSONDecodeError].

Section AgentFacts.

Context {RT : Runtime}.

(** *** The monad *)

Lemma bind_ret {A B} (a : A) (k : A -> M B) (h : history) :
  bind (ret a) k h = k a h.
Proof. reflexivity. Qed.

Lemma bind_raise {A B} (e : exn) (k : A -> M B) (h : history) :
  bind (raise e) k h = (h, Raised e).
Proof. reflexivity. Qed.

Lemma bind_outcome {A B} (c : M A) (k : A -> M B) (h h' : history) (a : A) :
  c h = (h', Normal a) -> bind c k h = k a h'.
Proof. intros E. unfold bind. now rewrite E. Qed.

Lemma bind_raised {A B} (c : M A) (k : A -> M B) (h h' : history) (e : exn) :
  c h = (h', Raised e) -> bind c k h = (h', Raised e).
Proof. intros E. unfold bind. now rewrite E. Qed.

(** *** Names *)

Lemma all_commands_unbound (h : history) :
  load_global "all_commands" h = (h, Raised (NameError "all_commands")).
Proof. reflexivity. Qed.

(** *** Preparing the command *)

Lemma prepend_preamble_text interpreter post_url c h :
  prepend_preamble interpreter post_url (PyStr c) h
  = (h, Normal (PyStr (prepared_text interpreter post_url c))).
Proof.
  unfold prepend_preamble, prepared_text.
  destruct (Text.contains "powershell" interpreter); reflexivity.
Qed.

Lemma prepare_command_text c post_url interpreter_override h :
  let interpreter := resolve_interpreter os_type interpreter_override in
  prepare_command (PyStr c) post_url interpreter_override h
  = (h, Normal (interpreter,
                frame_command interpreter interpreter_override
                  (PyStr (prepared_text interpreter post_url c)))).
Proof.
  intros interpreter. unfold prepare_command. fold interpreter.
  erewrite bind_outcome by apply prepend_preamble_text.
  reflexivity.
Qed.

(** Whatever [commands] is, the function stops before the spawn. *)
Lemma prepare_command_silent commands post_url interpreter_override h :
  (exists r, prepare_command commands post_url interpreter_override h = (h, Normal r))
  \/ (exists e, prepare_command commands post_url interpreter_override h = (h, Raised e)).
Proof.
  unfold prepare_command, prepend_preamble.
  destruct (Text.contains "powershell" _).
  - destruct commands;
      solve [ left; eexists; reflexivity | right; eexists; reflexivity ].
  - left; eexists; reflexivity.
Qed.

Lemma execute_commands_raises commands post_url interpreter_override delim h :
  exists e,
    execute_commands commands post_url interpreter_override delim h = (h, Raised e).
Proof.
  unfold execute_commands, py_def.
  destruct (prepare_command_silent commands post_url interpreter_override h)
    as [[r E] | [e E]].
  - erewrite bind_outcome by exact E. cbn. eauto.
  - erewrite bind_raised by exact E. eauto.
Qed.

(** C1.  Lines 103-108 prepare the command the way the specification
    describes: with an override the text, preamble included, is
    wrapped as [<interpreter> -c "<commands>"], without one it is
    left as it is.  Line 109 then reads the name [all_commands],
    which nothing binds: [execute_commands] raises [NameError] with
    the history unchanged, so no child process is ever spawned. *)
Theorem execute_commands_never_reaches_spawn :
  forall (c : string) (post_url interpreter_override : option string)
         (interpreter_delimiter : pyobj) (h : history),
    let interpreter := resolve_interpreter os_type interpreter_override in
    let text := prepared_text interpreter post_url c in
    prepare_command (PyStr c) post_url interpreter_override h
    = (h, Normal (interpreter,
                  if Py.truthy_opt interpreter_override
                  then PyStr (interpreter ++ " -c " ++ Text.dquote ++ text ++ Text.dquote)
                  else PyStr text))
    /\ execute_commands (PyStr c) post_url interpreter_override
         interpreter_delimiter h
       = (h, Raised (NameError "all_commands")).
Proof.
  intros c post_url interpreter_override delim h interpreter text. split.
  - apply prepare_command_text.
  - unfold execute_commands, py_def.
    erewrite bind_outcome by apply prepare_command_text.
    reflexivity.
Qed.

(** *** Interpreter resolution *)

(** C5.  Resolution is a total function of the platform name and the
    override, so it cannot fail and it answers the same on the same
    pair.  A non-empty override is the answer on every platform; with
    no override, or an empty one, [windows] resolves to [powershell],
    [darwin] to [/bin/zsh] and every other name to [/bin/bash].  It
    is the interpreter [execute_commands] works with. *)
Theorem resolve_interpreter_policy :
  (forall os s, s <> "" -> resolve_interpreter os (Some s) = s)
  /\ (forall os,
        resolve_interpreter os None = default_interpreter os
        /\ resolve_interpreter os (Some "") = default_interpreter os)
  /\ default_interpreter "windows" = "powershell"
  /\ default_interpreter "darwin" = "/bin/zsh"
  /\ (forall os,
        os <> "windows" -> os <> "darwin" -> default_interpreter os = "/bin/bash")
  /\ (forall c post_url interpreter_override h,
        exists command,
          prepare_command (PyStr c) post_url interpreter_override h
          = (h, Normal (resolve_interpreter os_type interpreter_override, command))).
Proof.
  repeat split.
  - intros os s Hs. unfold resolve_interpreter, Py.or_else.
    destruct (String.eqb_spec s ""); [contradiction | reflexivity].
  - intros os Hw Hd. unfold default_interpreter.
    destruct (String.eqb_spec os "windows"); [contradiction |].
    destruct (String.eqb_spec os "darwin"); [contradiction | reflexivity].
  - intros c post_url interpreter_override h. eexists.
    apply prepare_command_text.
Qed.

(** *** Reporting the output *)

Lemma report_output_invalid out msg h :
  json_loads out = inr msg ->
  let line := ("Error decoding command output as JSON: " ++ msg)%string in
  let payload := json_dumps (PyDict [("error", PyStr line); ("output", PyStr out)]) in
  report_output (PyStr out) h =
    match transport_send (h ++ [Print line]) payload with
    | None => (h ++ [Print line; SendMessage payload; Print "Message sent!"], Normal tt)
    | Some err => (h ++ [Print line; SendMessage payload], Raised (TransportError err))
    end.
Proof.
  intros E line payload.
  unfold report_output, py_json_loads. step. rewrite E. step.
  fold line. fold payload. unfold send_message.
  destruct (transport_send (h ++ [Print line]) payload);
    rewrite <- ?app_assoc; reflexivity.
Qed.

Lemma report_output_valid out v h :
  json_loads out = inl v ->
  let payload := json_dumps v in
  report_output (PyStr out) h =
    match transport_send h payload with
    | None => (h ++ [SendMessage payload; Print "Message sent!"], Normal tt)
    | Some err => (h ++ [SendMessage payload], Raised (TransportError err))
    end.
Proof.
  intros E payload.
  unfold report_output, py_json_loads. step. rewrite E. step.
  fold payload. unfold send_message.
  destruct (transport_send h payload);
    rewrite <- ?app_assoc; reflexivity.
Qed.

Lemma sent_payloads_app h1 h2 :
  sent_payloads (h1 ++ h2) = sent_payloads h1 ++ sent_payloads h2.
Proof.
  induction h1 as [| e h1 IH]; [reflexivity |].
  destruct e; cbn; now rewrite IH.
Qed.

(** *** The dispatch loop *)

Lemma message_handler_submits data d c h :
  json_loads data = inl (PyDict d) ->
  Py.lookup "commands" d = Some c ->
  message_handler data h =
    (h ++ [ Print ("Received message: " ++ data);
            Print "Running commands";
            Submit (Task c (Py.get_default "post_id" PyNone d) None None
                      (Py.get_default "interpreter_delimiter" (PyStr Text.nl) d)) ],
     Normal PyNone).
Proof.
  intros E C.
  unfold message_handler, py_json_loads, py_contains, py_getitem, py_get, Py.get_default.
  step. rewrite E. step. rewrite C. step.
  destruct (Py.lookup "post_id" d);
    destruct (Py.lookup "interpreter_delimiter" d);
    rewrite <- ?app_assoc; reflexivity.
Qed.

(** C6.  A message that decodes to an object without the key
    [commands] only has its receipt printed: nothing is submitted to
    the executor, nothing is sent or posted, and the handler returns
    normally. *)
Theorem message_without_commands_is_ignored :
  forall (data : string) (d : list (string * pyobj)) (h : history),
    json_loads data = inl (PyDict d) ->
    Py.lookup "commands" d = None ->
    message_handler data h
    = (h ++ [Print ("Received message: " ++ data)], Normal PyNone).
Proof.
  intros data d h E C.
  unfold message_handler, py_json_loads, py_contains.
  step. rewrite E. step. rewrite C. reflexivity.
Qed.

(** C10.  A message whose body the decoder rejects makes the handler
    raise the decode error right after printing the receipt; nothing
    catches it and nothing is submitted. *)
Theorem malformed_message_raises :
  forall (data msg : string) (h : history),
    json_loads data = inr msg ->
    message_handler data h
    = (h ++ [Print ("Received message: " ++ data)], Raised (JSONDecodeError msg)).
Proof.
  intros data msg h E.
  unfold message_handler, py_json_loads.
  step. rewrite E. reflexivity.
Qed.

(** *** Where the results go *)

Lemma replace_char_removes (old new : ascii) (s : string) :
  old <> new ->
  Text.contains (String old EmptyString) (Text.replace_char old new s) = false.
Proof.
  intros D. induction s as [| c rest IH]; [reflexivity |].
  cbn [Text.replace_char Text.contains]. rewrite IH, orb_false_r.
  cbn [prefix].
  destruct (Ascii.eqb_spec c old) as [-> | N];
    destruct (ascii_dec old _) as [E | E]; congruence.
Qed.

(** Lines 142-144 on a non-empty textual [post_id]. *)
Lemma callback_url_text post_id rewst_engine_host h :
  post_id <> "" ->
  callback_url (PyStr post_id) rewst_engine_host h
  = (h, Normal (Some ("https://" ++ Py.format_opt rewst_engine_host
                        ++ "/webhooks/custom/action/"
                        ++ Text.replace_char ":" "/" post_id)%string)).
Proof.
  intros N. unfold callback_url. cbn [Py.truthy].
  destruct (String.eqb_spec post_id ""); [contradiction | reflexivity].
Qed.

Lemma callback_url_silent post_id rewst_engine_host h :
  (exists u, callback_url post_id rewst_engine_host h = (h, Normal u))
  \/ (exists e, callback_url post_id rewst_engine_host h = (h, Raised e)).
Proof.
  unfold callback_url. destruct (Py.truthy post_id).
  - destruct post_id;
      solve [ left; eexists; reflexivity | right; eexists; reflexivity ].
  - left; eexists; reflexivity.
Qed.

Lemma handle_commands_raises commands post_id rewst_engine_host interpreter_override delim h :
  exists e,
    handle_commands commands post_id rewst_engine_host interpreter_override delim h
    = (h, Raised e).
Proof.
  unfold handle_commands, py_def.
  destruct (callback_url_silent post_id rewst_engine_host h) as [[u E] | [e E]].
  - erewrite bind_outcome by exact E.
    destruct (execute_commands_raises commands rewst_engine_host
                interpreter_override delim h) as [e E'].
    erewrite bind_raised by exact E'. eauto.
  - erewrite bind_raised by exact E. eauto.
Qed.

(** From line 111 on, [execute_commands] spawns the child and returns
    its trimmed output at line 120; the statements after the [return]
    do not run. *)
Lemma run_and_return_skips_the_rest command interpreter post_url h :
  py_def (run_and_return command ;; post_command_output interpreter post_url) h
  = (h ++ [Spawn command], Normal (PyStr (Text.strip (child_stdout h command)))).
Proof. reflexivity. Qed.

Lemma report_output_never_posts out h :
  filter is_http_post (fst (report_output out h)) = filter is_http_post h.
Proof.
  destruct out;
    try (unfold report_output, py_json_loads; step; reflexivity).
  destruct (json_loads s) as [v | msg] eqn:E.
  - rewrite (report_output_valid s v h E).
    destruct (transport_send h (json_dumps v)); cbn [fst];
      rewrite filter_app; cbn; apply app_nil_r.
  - rewrite (report_output_invalid s msg h E).
    destruct (transport_send _ _); cbn [fst];
      rewrite filter_app; cbn; apply app_nil_r.
Qed.

(** C3.  Lines 142-144 build the callback URL as specified, and no
    path of the agent posts to it.  [handle_commands] ends in the
    exception of line 109 with the history as it found it.  Were the child to be spawned, [execute_commands] would
    return at line 120, ahead of the only [client.post] of the
    program, and [handle_commands] would hand the result to the
    transport: [report_output] adds no POST to the history either,
    whatever the [post_id] was. *)
Theorem command_results_are_never_posted :
  (forall h,
      callback_url (PyStr "abc:123") (Some "h.example.com") h
      = (h, Normal (Some "https://h.example.com/webhooks/custom/action/abc/123")))
  /\ (forall commands post_id rewst_engine_host interpreter_override delim h,
      filter is_http_post
        (fst (handle_commands commands post_id rewst_engine_host
                interpreter_override delim h))
      = filter is_http_post h)
  /\ (forall command interpreter post_url h,
        py_def (run_and_return command ;; post_command_output interpreter post_url) h
        = (h ++ [Spawn command],
           Normal (PyStr (Text.strip (child_stdout h command)))))
  /\ (forall out h,
        filter is_http_post (fst (report_output out h)) = filter is_http_post h).
Proof.
  split; [| split; [| split]].
  - reflexivity.
  - intros commands post_id host interpreter_override delim h.
    destruct (handle_commands_raises commands post_id host
                interpreter_override delim h) as [e E].
    now rewrite E.
  - apply run_and_return_skips_the_rest.
  - apply report_output_never_posts.
Qed.

(** *** The delimiter *)

(** C9.  The delimiter takes no part in the execution.
    [execute_commands] and [handle_commands] behave the same for any
    two delimiters, and two messages that agree on [commands] and
    [post_id] lead to tasks that a worker runs to the same history
    and outcome, through the same prepared command. *)
Theorem interpreter_delimiter_is_ignored :
  (forall commands post_url interpreter_override d1 d2 h,
      execute_commands commands post_url interpreter_override d1 h
      = execute_commands commands post_url interpreter_override d2 h)
  /\ (forall commands post_id rewst_engine_host interpreter_override d1 d2 h,
        handle_commands commands post_id rewst_engine_host interpreter_override d1 h
        = handle_commands commands post_id rewst_engine_host interpreter_override d2 h)
  /\ (forall data1 data2 m1 m2 c h1 h2,
        json_loads data1 = inl (PyDict m1) ->
        json_loads data2 = inl (PyDict m2) ->
        Py.lookup "commands" m1 = Some c ->
        Py.lookup "commands" m2 = Some c ->
        Py.lookup "post_id" m1 = Py.lookup "post_id" m2 ->
        exists t1 t2,
          message_handler data1 h1
          = (h1 ++ [ Print ("Received message: " ++ data1);
                     Print "Running commands"; Submit t1 ], Normal PyNone)
          /\ message_handler data2 h2
             = (h2 ++ [ Print ("Received message: " ++ data2);
                        Print "Running commands"; Submit t2 ], Normal PyNone)
          /\ task_commands t1 = task_commands t2
          /\ (forall h, run_task t1 h = run_task t2 h)).
Proof.
  split; [| split].
  - reflexivity.
  - reflexivity.
  - intros data1 data2 m1 m2 c h1 h2 E1 E2 C1 C2 P.
    eexists. eexists.
    split; [apply (message_handler_submits data1 m1 c h1 E1 C1) |].
    split; [apply (message_handler_submits data2 m2 c h2 E2 C2) |].
    split; [reflexivity |].
    intros h. unfold run_task, Py.get_default. cbn [task_commands task_post_id
      task_rewst_engine_host task_interpreter task_interpreter_delimiter].
    rewrite P. reflexivity.
Qed.

(** *** The heartbeat *)

Lemma send_status_update_run h :
  send_status_update h =
    match transport_send (h ++ [sending]) (status_payload h) with
    | None =>
        (h ++ [sending; SendMessage (status_payload h); Print "Status update sent!"],
         Normal PyNone)
    | Some err =>
        (h ++ [sending; SendMessage (status_payload h)], Raised (TransportError err))
    end.
Proof.
  unfold send_status_update. step. unfold send_message.
  destruct (transport_send (h ++ [sending]) (status_payload h));
    rewrite <- ?app_assoc; reflexivity.
Qed.

Lemma status_update_task_turn_ok h n :
  transport_send (h ++ [sending]) (status_payload h) = None ->
  status_update_task (S n) h
  = status_update_task n
      (h ++ [ sending; SendMessage (status_payload h);
              Print "Status update sent!"; Sleep 600 ]).
Proof.
  intros E. cbn [status_update_task].
  erewrite bind_outcome
    by (rewrite send_status_update_run, E; reflexivity).
  step. unfold status_update_checkin_time.
  rewrite <- app_assoc. reflexivity.
Qed.

Lemma status_update_task_turn_failed h n err :
  transport_send (h ++ [sending]) (status_payload h) = Some err ->
  status_update_task (S n) h
  = (h ++ [sending; SendMessage (status_payload h)], Raised (TransportError err)).
Proof.
  intros E. cbn [status_update_task].
  erewrite bind_raised
    by (rewrite send_status_update_run, E; reflexivity).
  reflexivity.
Qed.

Lemma count_sleeps_app h1 h2 :
  length (filter is_sleep (h1 ++ h2))
  = length (filter is_sleep h1) + length (filter is_sleep h2).
Proof. now rewrite filter_app, length_app. Qed.

(** While the transport accepts every payload the loop keeps going:
    after [n] turns it has sent [n] more status updates and slept [n]
    more times, and it has not ended. *)
Lemma heartbeat_runs_while_transport_up :
  (forall h p, transport_send h p = None) ->
  forall n h,
    exists h',
      status_update_task n h = (h', Normal tt)
      /\ length (sent_payloads h') = length (sent_payloads h) + n
      /\ length (filter is_sleep h') = length (filter is_sleep h) + n.
Proof.
  intros Up n. induction n as [| n IH]; intros h.
  - exists h. cbn. now rewrite !Nat.add_0_r.
  - rewrite status_update_task_turn_ok by apply Up.
    destruct (IH (h ++ [ sending; SendMessage (status_payload h);
                         Print "Status update sent!"; Sleep 600 ]))
      as (h' & E & Hsent & Hsleep).
    exists h'. split; [exact E |].
    rewrite Hsent, Hsleep, sent_payloads_app, count_sleeps_app, length_app.
    cbn. lia.
Qed.

(** C8, as the code has it.  A turn of the loop whose send succeeds
    is followed by the sleep of 600 seconds and then by the next
    turn.  A turn whose send fails ends the task: the transport's
    error leaves [send_status_update] and the loop, with no sleep and
    no further turn. *)
Theorem heartbeat_turn :
  forall (h : history) (n : nat),
    (transport_send (h ++ [sending]) (status_payload h) = None ->
     status_update_task (S n) h
     = status_update_task n
         (h ++ [ sending; SendMessage (status_payload h);
                 Print "Status update sent!"; Sleep 600 ]))
    /\ (forall err,
          transport_send (h ++ [sending]) (status_payload h) = Some err ->
          status_update_task (S n) h
          = (h ++ [sending; SendMessage (status_payload h)],
             Raised (TransportError err))).
Proof.
  intros h n. split.
  - apply status_update_task_turn_ok.
  - intros err. apply status_update_task_turn_failed.
Qed.

End AgentFacts.

(** ** The properties on concrete runs *)

Lemma resolve_interpreter_policy_witness :
  resolve_interpreter "linux" (Some "/bin/sh") = "/bin/sh"
  /\ default_interpreter "linux" = "/bin/bash".
Proof.
  destruct (@resolve_interpreter_policy linux_runtime)
    as (Hoverride & _ & _ & _ & Hother & _).
  split; [apply Hoverride | apply Hother]; discriminate.
Defined.

Lemma message_without_commands_is_ignored_witness :
  ExampleJson.loads ping_message = inl (PyDict [("ping", PyInt 1)])
  /\ Py.lookup "commands" [("ping", PyInt 1)] = None
  /\ @message_handler linux_runtime ping_message []
     = ([Print (String.append "Received message: " ping_message)], Normal PyNone).
Proof.
  split; [reflexivity |]. split; [reflexivity |].
  exact (@message_without_commands_is_ignored linux_runtime ping_message
           [("ping", PyInt 1)] [] eq_refl eq_refl).
Defined.

Lemma malformed_message_raises_witness :
  ExampleJson.loads "not json" = inr "Expecting value"
  /\ @message_handler linux_runtime "not json" []
     = ([Print "Received message: not json"],
        Raised (JSONDecodeError "Expecting value")).
Proof.
  split; [reflexivity |].
  exact (@malformed_message_raises linux_runtime "not json" "Expecting value" []
           eq_refl).
Defined.

Lemma interpreter_delimiter_is_ignored_witness :
  exists t1 t2,
    @message_handler linux_runtime command_message []
    = ([ Print (String.append "Received message: " command_message);
         Print "Running commands"; Submit t1 ], Normal PyNone)
    /\ @message_handler linux_runtime delimited_message []
       = ([ Print (String.append "Received message: " delimited_message);
            Print "Running commands"; Submit t2 ], Normal PyNone)
    /\ task_commands t1 = task_commands t2
    /\ (forall h, @run_task linux_runtime t1 h = @run_task linux_runtime t2 h).
Proof.
  exact (proj2 (proj2 (@interpreter_delimiter_is_ignored linux_runtime))
           command_message delimited_message
           [("commands", PyStr "Get-Date"); ("post_id", PyStr "abc:123")]
           [ ("commands", PyStr "Get-Date"); ("post_id", PyStr "abc:123");
             ("interpreter_delimiter", PyStr ";") ]
           (PyStr "Get-Date") [] []
           eq_refl eq_refl eq_refl eq_refl eq_refl).
Defined.

Lemma heartbeat_turn_witness :
  (@transport_send flaky_runtime [sending] (@status_payload flaky_runtime []) = None
   /\ @status_update_task flaky_runtime 2 []
      = @status_update_task flaky_runtime 1
          [ sending; SendMessage (@status_payload flaky_runtime []);
            Print "Status update sent!"; Sleep 600 ])
  /\ (@transport_send flaky_runtime
         [ sending; SendMessage (@status_payload flaky_runtime []);
           Print "Status update sent!"; Sleep 600; sending ]
         (@status_payload flaky_runtime []) = Some "connection lost"
      /\ @status_update_task flaky_runtime 1
           [ sending; SendMessage (@status_payload flaky_runtime []);
             Print "Status update sent!"; Sleep 600 ]
         = ([ sending; SendMessage (@status_payload flaky_runtime []);
              Print "Status update sent!"; Sleep 600;
              sending; SendMessage (@status_payload flaky_runtime []) ],
            Raised (TransportError "connection lost"))).
Proof.
  split.
  - split; [reflexivity |].
    exact (proj1 (@heartbeat_turn flaky_runtime [] 1) eq_refl).
  - split; [reflexivity |].
    exact (proj2 (@heartbeat_turn flaky_runtime
                    [ sending; SendMessage (@status_payload flaky_runtime []);
                      Print "Status update sent!"; Sleep 600 ] 0)
             "connection lost" eq_refl).
Defined.

(** C4.  Lines 147-152 do wrap an output that is no json: for the text
    [hello] they would send the object with the decoder's message under
    [error] and the text under [output].  No command gets that far.
    A call of [handle_commands] on a textual [commands] ends in an
    exception with the history as it was, on every runtime; the
    message that asks for [echo hello] is submitted and its task ends
    in the [NameError] of line 109 with nothing sent. *)
Theorem output_that_is_no_json_is_never_delivered :
  (forall (RT : Runtime) (c : string) (post_id : pyobj)
          (rewst_engine_host interpreter_override : option string)
          (delim : pyobj) (h : history),
      exists e,
        handle_commands (PyStr c) post_id rewst_engine_host interpreter_override
          delim h
        = (h, Raised e))
  /\ @message_handler linux_runtime echo_message []
     = ([ Print (String.append "Received message: " echo_message);
          Print "Running commands";
          Submit echo_task ],
        Normal PyNone)
  /\ @run_task linux_runtime echo_task [] = ([], Raised (NameError "all_commands"))
  /\ (forall h command,
        Text.strip (@child_stdout linux_runtime h command) = "hello")
  /\ ExampleJson.loads "hello" = inr "Expecting value"
  /\ @report_output linux_runtime (PyStr "hello") []
     = ([ Print "Error decoding command output as JSON: Expecting value";
          SendMessage
            (ExampleJson.dumps
               (PyDict [ ("error",
                          PyStr "Error decoding command output as JSON: Expecting value");
                         ("output", PyStr "hello") ]));
          Print "Message sent!" ],
        Normal tt).
Proof.
  split.
  - intros RT c post_id host interpreter_override delim h.
    apply handle_commands_raises.
  - repeat split.
Qed.

(** C7.  Lines 147-156 do send the serialisation of the value parsed
    from an output that is json: for the text [status_output] they
    would send that value's serialisation and nothing else.  No
    command gets that far.  A call of [handle_commands] on a textual
    [commands] hands no payload to the transport, on every runtime;
    the message that asks for [cat status.json] is submitted and its
    task ends in the [NameError] of line 109 with nothing sent. *)
Theorem output_that_is_json_is_never_delivered :
  (forall (RT : Runtime) (c : string) (post_id : pyobj)
          (rewst_engine_host interpreter_override : option string)
          (delim : pyobj) (h : history),
      sent_payloads
        (fst (handle_commands (PyStr c) post_id rewst_engine_host
                interpreter_override delim h))
      = sent_payloads h)
  /\ @message_handler json_child_runtime show_message []
     = ([ Print (String.append "Received message: " show_message);
          Print "Running commands";
          Submit show_task ],
        Normal PyNone)
  /\ @run_task json_child_runtime show_task []
     = ([], Raised (NameError "all_commands"))
  /\ (forall h command,
        Text.strip (@child_stdout json_child_runtime h command) = status_output)
  /\ ExampleJson.loads status_output = inl status_value
  /\ @report_output json_child_runtime (PyStr status_output) []
     = ([SendMessage (ExampleJson.dumps status_value); Print "Message sent!"],
        Normal tt).
Proof.
  split.
  - intros RT c post_id host interpreter_override delim h.
    destruct (@handle_commands_raises RT (PyStr c) post_id host
                interpreter_override delim h) as [e E].
    now rewrite E.
  - repeat split.
Qed.

(** C8 as the specification has it fails.  On a host whose connection is lost
    after the first message, the second turn of the loop ends the task:
    of the three turns asked for, the third never starts.  So it is not
    true that a turn whose send fails is followed by further turns. *)
Lemma heartbeat_send_failure_ends_loop :
  @status_update_task flaky_runtime 3 []
  = ([ sending; SendMessage (@status_payload flaky_runtime []);
       Print "Status update sent!"; Sleep 600;
       sending; SendMessage (@status_payload flaky_runtime []) ],
     Raised (TransportError "connection lost"))
  /\ ~ (forall (RT : Runtime) (h : history) (n : nat) (err : string),
          transport_send (h ++ [sending]) (status_payload h) = Some err ->
          exists h', status_update_task (S n) h = (h', Normal tt)).
Proof.
  split; [reflexivity |].
  intros claim.
  destruct (claim flaky_runtime
              [ sending; SendMessage (@status_payload flaky_runtime []);
                Print "Status update sent!"; Sleep 600 ]
              0%nat "connection lost" eq_refl) as [h' E].
  discriminate E.
Qed.

(** C2 at a call that asks for PowerShell and a callback.  Lines
    142-144 build the callback URL from the [post_id]; line 146 passes
    the engine host, not that URL, as the [post_url] of
    [execute_commands], so the preamble binds [$post_url] to the host
    name.  The prepared text is not executed: the call ends in the
    exception of line 109.  A message that comes in through
    [message_handler] is run with no engine host at all; where the
    platform name makes PowerShell the default, its preamble binds
    [$post_url] to the text [None]. *)
Theorem powershell_preamble_binds_engine_host :
  callback_url (PyStr "abc:123") (Some "h.example.com") []
  = ([], Normal (Some "https://h.example.com/webhooks/custom/action/abc/123"))
  /\ @prepare_command linux_runtime (PyStr "Get-Date") (Some "h.example.com")
       (Some "powershell") []
     = ([], Normal ("powershell",
                    PyStr ("powershell -c " ++ Text.dquote
                             ++ "[Net.ServicePointManager]::SecurityProtocol = [Net.SecurityProtocolType]::Tls12"
                             ++ Text.nl ++ "$post_url = 'h.example.com'"
                             ++ Text.nl ++ "Get-Date" ++ Text.dquote)%string))
  /\ @handle_commands linux_runtime (PyStr "Get-Date") (PyStr "abc:123")
       (Some "h.example.com") (Some "powershell") (PyStr Text.nl) []
     = ([], Raised (NameError "all_commands"))
  /\ @message_handler windows_runtime command_message []
     = ([ Print (String.append "Received message: " command_message);
          Print "Running commands";
          Submit (Task (PyStr "Get-Date") (PyStr "abc:123") None None (PyStr Text.nl)) ],
        Normal PyNone)
  /\ @prepare_command windows_runtime (PyStr "Get-Date") None None []
     = ([], Normal ("powershell",
                    PyStr ("[Net.ServicePointManager]::SecurityProtocol = [Net.SecurityProtocolType]::Tls12"
                             ++ Text.nl ++ "$post_url = 'None'"
                             ++ Text.nl ++ "Get-Date")%string)).
Proof. repeat split. Qed.

(** ** Start-up: properties *)

(** Runs the operations of start-up and leaves texts and journals
    folded. *)
Ltac pstep :=
  cbv beta iota zeta delta
    [pbind pret act p_raise p_return exit wait_forever p_def
     try_except_Exception try_finally log_error].

Section StartupFacts.

Context {HOST : Host}.

Local Open Scope startup_scope.

Lemma agent_history_app j1 j2 :
  agent_history (j1 ++ j2) = agent_history j1 ++ agent_history j2.
Proof.
  induction j1 as [| a j1 IH]; [reflexivity |].
  destruct a; cbn; now rewrite ?IH.
Qed.

Lemma agent_history_map es : agent_history (map Agent es) = es.
Proof. induction es as [| e es IH]; cbn; now rewrite ?IH. Qed.

Lemma skipn_length_app {A} (l1 l2 : list A) : skipn (length l1) (l1 ++ l2) = l2.
Proof. induction l1 as [| x l1 IH]; [reflexivity | exact IH]. Qed.

(** A lifted computation adds to the journal what it adds to the
    history. *)
Lemma lift_appends {A} (c : M A) (j : journal) (es : list event) (o : outcome A) :
  c (agent_history j) = (agent_history j ++ es, o) ->
  lift c j
  = (j ++ map Agent es,
     match o with
     | Normal a => Done a
     | Raised e => Fault (PyExn e)
     | Returned v => Return v
     end).
Proof.
  intros E. unfold lift. rewrite E, skipn_length_app. reflexivity.
Qed.

Lemma lift_silent {A} (c : M A) (j : journal) (o : outcome A) :
  c (agent_history j) = (agent_history j, o) ->
  lift c j
  = (j,
     match o with
     | Normal a => Done a
     | Raised e => Fault (PyExn e)
     | Returned v => Return v
     end).
Proof.
  intros E. rewrite (lift_appends c j [] o).
  - cbn [map]. now rewrite app_nil_r.
  - now rewrite app_nil_r.
Qed.

Lemma lift_print line j :
  lift (print line) j = (j ++ [Agent (Print line)], Done tt).
Proof. now rewrite (lift_appends (print line) j [Print line] (Normal tt)). Qed.

Lemma lift_contains key v j :
  lift (py_contains key v) j
  = (j, match snd (py_contains key v []) with
        | Normal b => Done b
        | Raised e => Fault (PyExn e)
        | Returned r => Return r
        end).
Proof.
  rewrite (lift_silent _ j (snd (py_contains key v []))); [reflexivity |].
  destruct v; reflexivity.
Qed.

Lemma lift_getitem v key j :
  lift (py_getitem v key) j
  = (j, match snd (py_getitem v key []) with
        | Normal x => Done x
        | Raised e => Fault (PyExn e)
        | Returned r => Return r
        end).
Proof.
  rewrite (lift_silent _ j (snd (py_getitem v key []))); [reflexivity |].
  destruct v; try reflexivity.
  cbn. destruct (Py.lookup key d); reflexivity.
Qed.

(** *** [load_config] *)

Lemma check_required_object_complete keys d j :
  Forall (bound d) keys ->
  check_required keys (PyDict d) j = (j, Done tt).
Proof.
  induction 1 as [| key rest Hkey _ IH]; [reflexivity |].
  cbn [check_required]. unfold pbind at 1. rewrite lift_contains. cbn.
  unfold bound in Hkey. destruct (Py.lookup key d); [exact IH | contradiction].
Qed.

Lemma check_required_object_missing before key after d j :
  Forall (bound d) before ->
  Py.lookup key d = None ->
  check_required (before ++ key :: after) (PyDict d) j
  = (j ++ [LogError (missing_line key)], Return PyNone).
Proof.
  intros Hbefore Hkey.
  induction Hbefore as [| b rest Hb _ IH].
  - cbn [app check_required]. unfold pbind at 1. rewrite lift_contains. cbn.
    rewrite Hkey. reflexivity.
  - cbn [app check_required]. unfold pbind at 1. rewrite lift_contains. cbn.
    unfold bound in Hb. destruct (Py.lookup b d); [exact IH | contradiction].
Qed.

Lemma read_config_decoded text v j :
  config_file = inl text ->
  json_loads text = inl v ->
  read_config j = (j, Done v).
Proof.
  intros F E. unfold read_config. rewrite F.
  rewrite (lift_silent _ j (Normal v)); [reflexivity |].
  unfold py_json_loads. now rewrite E.
Qed.

Lemma load_config_decoded text v j :
  config_file = inl text ->
  json_loads text = inl v ->
  load_config j
  = match check_required required_keys v j with
    | (j', Done _) => (j', Done v)
    | (j', Return r) => (j', Done r)
    | (j', Fault f) => (j', Fault f)
    | (j', Exit code) => (j', Exit code)
    | (j', Waiting) => (j', Waiting)
    end.
Proof.
  intros F E. unfold load_config. pstep.
  rewrite (read_config_decoded text v j F E).
  destruct (check_required required_keys v j) as [j' [[] | f | r | code |]];
    reflexivity.
Qed.

Lemma first_missing keys d :
  Forall (bound d) keys
  \/ exists before key after,
       keys = before ++ key :: after
       /\ Forall (bound d) before
       /\ Py.lookup key d = None.
Proof.
  induction keys as [| k rest IH]; [left; constructor |].
  destruct (Py.lookup k d) as [v |] eqn:E.
  - assert (Hk : bound d k) by (unfold bound; congruence).
    destruct IH as [All | (before & key & after & -> & Hb & Hm)].
    + left. now constructor.
    + right. exists (k :: before), key, after. repeat split; auto.
  - right. exists [], k, rest. repeat split; auto.
Qed.

Lemma load_config_complete text d j :
  config_file = inl text ->
  json_loads text = inl (PyDict d) ->
  Forall (bound d) required_keys ->
  load_config j = (j, Done (PyDict d)).
Proof.
  intros F E All. rewrite (load_config_decoded text _ j F E).
  now rewrite check_required_object_complete.
Qed.

Lemma load_config_missing text d before key after j :
  config_file = inl text ->
  json_loads text = inl (PyDict d) ->
  required_keys = before ++ key :: after ->
  Forall (bound d) before ->
  Py.lookup key d = None ->
  load_config j = (j ++ [LogError (missing_line key)], Done PyNone).
Proof.
  intros F E Split Hb Hm. rewrite (load_config_decoded text _ j F E), Split.
  now rewrite check_required_object_missing.
Qed.

(** X1.  For a configuration file that holds a json object,
    [load_config] returns that object, and logs nothing, exactly when
    the object binds all five required keys. *)
Theorem load_config_accepts_complete_objects :
  forall (text : string) (d : list (string * pyobj)) (j : journal),
    config_file = inl text ->
    json_loads text = inl (PyDict d) ->
    (load_config j = (j, Done (PyDict d)) <-> Forall (bound d) required_keys).
Proof.
  intros text d j F E. split.
  - intros L.
    destruct (first_missing required_keys d)
      as [All | (before & key & after & Split & Hb & Hm)]; [exact All |].
    rewrite (load_config_missing text d before key after j F E Split Hb Hm) in L.
    discriminate L.
  - intros All. exact (load_config_complete text d j F E All).
Qed.

(** X2.  When the object lacks a required key, [load_config] returns
    [None] and logs one record, which names the first missing key in
    the order of the list of line 43; the keys after it are not looked
    at. *)
Theorem load_config_reports_first_missing_key :
  forall (text : string) (d : list (string * pyobj))
         (before : list string) (key : string) (after : list string) (j : journal),
    config_file = inl text ->
    json_loads text = inl (PyDict d) ->
    required_keys = before ++ key :: after ->
    Forall (bound d) before ->
    Py.lookup key d = None ->
    load_config j
    = (j ++ [LogError ("Error: Missing '" ++ key ++ "' in configuration.")],
       Done PyNone).
Proof. exact load_config_missing. Qed.

Lemma load_config_unreadable_run msg j :
  (config_file = inr msg
   \/ exists text, config_file = inl text /\ json_loads text = inr msg) ->
  load_config j = (j ++ [LogError ("Error: " ++ msg)], Done PyNone).
Proof.
  intros [F | (text & F & E)]; unfold load_config, read_config; pstep; rewrite F.
  - reflexivity.
  - rewrite (lift_silent _ j (Raised (JSONDecodeError msg))); [reflexivity |].
    unfold py_json_loads. now rewrite E.
Qed.

(** X3.  A configuration file that cannot be opened or read, or whose
    text is not json, makes [load_config] return [None] after logging
    the text of the exception; the exception itself goes no further. *)
Theorem load_config_survives_unreadable_file :
  forall (msg : string) (j : journal),
    (config_file = inr msg
     \/ exists text, config_file = inl text /\ json_loads text = inr msg) ->
    load_config j = (j ++ [LogError ("Error: " ++ msg)], Done PyNone).
Proof. exact load_config_unreadable_run. Qed.

Lemma load_config_scalar_run text v j :
  config_file = inl text ->
  json_loads text = inl v ->
  scalar v = true ->
  load_config j
  = (j, Fault (PyExn (TypeError ("argument of type '" ++ Py.type_name v
                                   ++ "' is not iterable")))).
Proof.
  intros F E S. rewrite (load_config_decoded text v j F E).
  cbn [required_keys check_required]. unfold pbind at 1. rewrite lift_contains.
  destruct v; try discriminate S; reflexivity.
Qed.

(** X4.  The key check is outside the [try]: when the file holds json
    that is [null], a boolean or a number, the membership test of line
    51 raises [TypeError] and [load_config] lets it through, with
    nothing logged. *)
Theorem load_config_raises_on_scalar_json :
  forall (text : string) (v : pyobj) (j : journal),
    config_file = inl text ->
    json_loads text = inl v ->
    scalar v = true ->
    load_config j
    = (j, Fault (PyExn (TypeError ("argument of type '" ++ Py.type_name v
                                     ++ "' is not iterable")))).
Proof. exact load_config_scalar_run. Qed.

(** *** [get_connection_string] *)

Lemma lift_getitem_object d key x j :
  Py.lookup key d = Some x ->
  lift (py_getitem (PyDict d) key) j = (j, Done x).
Proof.
  intros E. rewrite lift_getitem. cbn. now rewrite E.
Qed.

Lemma bound_some d key :
  bound d key -> Py.lookup key d = Some (Py.get_default key PyNone d).
Proof.
  unfold bound, Py.get_default. destruct (Py.lookup key d); congruence.
Qed.

Lemma required_keys_bound d :
  Forall (bound d) required_keys ->
  bound d "azure_iot_hub_host" /\ bound d "device_id"
  /\ bound d "shared_access_key" /\ bound d "rewst_engine_host"
  /\ bound d "rewst_org_id".
Proof.
  intros All. unfold required_keys in All.
  repeat match goal with
         | H : Forall _ (_ :: _) |- _ => inversion H; subst; clear H
         end.
  repeat split; assumption.
Qed.

Lemma get_connection_string_object d j :
  bound d "azure_iot_hub_host" ->
  bound d "device_id" ->
  bound d "shared_access_key" ->
  get_connection_string (PyDict d) j = (j, Done (PyStr (connection_string_of d))).
Proof.
  intros H1 H2 H3. unfold get_connection_string. pstep.
  rewrite (lift_getitem_object _ _ _ j (bound_some _ _ H1)).
  rewrite (lift_getitem_object _ _ _ j (bound_some _ _ H2)).
  rewrite (lift_getitem_object _ _ _ j (bound_some _ _ H3)).
  reflexivity.
Qed.

Lemma lift_getitem_missing d key j :
  Py.lookup key d = None ->
  lift (py_getitem (PyDict d) key) j = (j, Fault (PyExn (KeyError key))).
Proof.
  intros E. rewrite lift_getitem. cbn. now rewrite E.
Qed.

(** X21.  On an object, [get_connection_string] reads the three
    fields in the order host, device, key: it ends in the [KeyError]
    of the first one that is missing, and otherwise returns the three
    values, rendered as [str()] does, between the fixed parts
    [HostName=], [;DeviceId=] and [;SharedAccessKey=]. *)
Theorem get_connection_string_on_object :
  forall (d : list (string * pyobj)) (j : journal),
    get_connection_string (PyDict d) j
    = (j,
       match Py.lookup "azure_iot_hub_host" d,
             Py.lookup "device_id" d,
             Py.lookup "shared_access_key" d with
       | None, _, _ => Fault (PyExn (KeyError "azure_iot_hub_host"))
       | Some _, None, _ => Fault (PyExn (KeyError "device_id"))
       | Some _, Some _, None => Fault (PyExn (KeyError "shared_access_key"))
       | Some host, Some device, Some key =>
           Done (PyStr ("HostName=" ++ py_str host ++ ";DeviceId=" ++ py_str device
                          ++ ";SharedAccessKey=" ++ py_str key))
       end).
Proof.
  intros d j. unfold get_connection_string. pstep.
  destruct (Py.lookup "azure_iot_hub_host" d) as [host |] eqn:H1.
  - rewrite (lift_getitem_object d _ host j H1).
    destruct (Py.lookup "device_id" d) as [device |] eqn:H2.
    + rewrite (lift_getitem_object d _ device j H2).
      destruct (Py.lookup "shared_access_key" d) as [key |] eqn:H3.
      * now rewrite (lift_getitem_object d _ key j H3).
      * now rewrite (lift_getitem_missing d _ j H3).
    + now rewrite (lift_getitem_missing d _ j H2).
  - now rewrite (lift_getitem_missing d _ j H1).
Qed.

(** X5.  A configuration that [load_config] accepts never makes
    [get_connection_string] fail on a missing key: for an object with
    the five keys the two calls in a row give the text
    [HostName=..;DeviceId=..;SharedAccessKey=..] built from its
    fields, and log nothing. *)
Theorem accepted_object_gives_connection_string :
  forall (text : string) (d : list (string * pyobj)) (j : journal),
    config_file = inl text ->
    json_loads text = inl (PyDict d) ->
    Forall (bound d) required_keys ->
    exists host device key,
      Py.lookup "azure_iot_hub_host" d = Some host
      /\ Py.lookup "device_id" d = Some device
      /\ Py.lookup "shared_access_key" d = Some key
      /\ (config <- load_config ;; get_connection_string config) j
         = (j, Done (PyStr ("HostName=" ++ py_str host ++ ";DeviceId=" ++ py_str device
                             ++ ";SharedAccessKey=" ++ py_str key))).
Proof.
  intros text d j F E All.
  destruct (required_keys_bound d All) as (H1 & H2 & H3 & _).
  exists (Py.get_default "azure_iot_hub_host" PyNone d),
         (Py.get_default "device_id" PyNone d),
         (Py.get_default "shared_access_key" PyNone d).
  repeat split; try (apply bound_some; assumption).
  unfold pbind. rewrite (load_config_complete text d j F E All).
  now rewrite get_connection_string_object.
Qed.

(** *** [main] *)

Lemma check_required_list_complete keys l j :
  (forall k, In k keys -> existsb (Py.is_str k) l = true) ->
  check_required keys (PyList l) j = (j, Done tt).
Proof.
  induction keys as [| key rest IH]; intros All; [reflexivity |].
  cbn [check_required]. unfold pbind at 1. rewrite lift_contains. cbn.
  rewrite (All key (or_introl eq_refl)).
  apply IH. intros k Hk. apply All. now right.
Qed.

(** X6.  The key check accepts a json array that has the five key
    names among its elements: [load_config] returns the array with
    nothing logged, and start-up then ends in the [TypeError] of the
    first field access of [get_connection_string], in either mode,
    before any client is created. *)
Theorem array_of_key_names_passes_validation :
  forall (text : string) (l : list pyobj) (check_mode : bool) (j : journal),
    config_file = inl text ->
    json_loads text = inl (PyList l) ->
    (forall k, In k required_keys -> existsb (Py.is_str k) l = true) ->
    load_config j = (j, Done (PyList l))
    /\ main check_mode j
       = (j, Fault (PyExn (TypeError "list indices must be integers or slices, not str"))).
Proof.
  intros text l check_mode j F E All.
  assert (L : load_config j = (j, Done (PyList l))).
  { rewrite (load_config_decoded text _ j F E).
    now rewrite check_required_list_complete. }
  split; [exact L |].
  unfold main. pstep. rewrite L. pstep.
  unfold get_connection_string. pstep. rewrite lift_getitem. reflexivity.
Qed.

Lemma check_required_cons key rest v j :
  check_required (key :: rest) v j
  = match snd (py_contains key v []) with
    | Normal true => check_required rest v j
    | Normal false => (j ++ [LogError (missing_line key)], Return PyNone)
    | Raised e => (j, Fault (PyExn e))
    | Returned r => (j, Return r)
    end.
Proof.
  cbn [check_required]. unfold pbind at 1. rewrite lift_contains.
  destruct (snd (py_contains key v [])) as [[|] | e | r]; reflexivity.
Qed.

Lemma check_required_cases keys v j :
  check_required keys v j = (j, Done tt)
  \/ (exists k, check_required keys v j = (j ++ [LogError (missing_line k)], Return PyNone))
  \/ (exists e, check_required keys v j = (j, Fault (PyExn e))).
Proof.
  induction keys as [| key rest IH]; [left; reflexivity |].
  rewrite check_required_cons.
  destruct (snd (py_contains key v [])) as [[|] | e | r] eqn:C.
  - exact IH.
  - right. left. exists key. reflexivity.
  - right. right. exists e. reflexivity.
  - destruct v; discriminate C.
Qed.

Lemma load_config_none j j' :
  load_config j = (j', Done PyNone) ->
  exists line, j' = j ++ [LogError line].
Proof.
  intros L.
  destruct config_file as [text | msg] eqn:F.
  - destruct (json_loads text) as [v | msg] eqn:E.
    + destruct (scalar v) eqn:S.
      * rewrite (load_config_scalar_run text v j F E S) in L. discriminate L.
      * rewrite (load_config_decoded text v j F E) in L.
        destruct (check_required_cases required_keys v j)
          as [C | [(k & C) | (e & C)]]; rewrite C in L.
        -- injection L as _ ->. discriminate S.
        -- injection L as <-. eauto.
        -- discriminate L.
    + rewrite (load_config_unreadable_run msg j) in L by eauto.
      injection L as <-. eauto.
  - rewrite (load_config_unreadable_run msg j) in L by eauto.
    injection L as <-. eauto.
Qed.

(** X7.  Whenever [load_config] returns [None], [main] ends with
    [exit(1)] in either mode, and all that has happened by then is the
    one record [load_config] logged: no client is created and nothing
    is connected or sent. *)
Theorem main_exits_1_without_configuration :
  forall (check_mode : bool) (j j' : journal),
    load_config j = (j', Done PyNone) ->
    main check_mode j = (j', Exit 1)
    /\ exists line, j' = j ++ [LogError line].
Proof.
  intros check_mode j j' L. split.
  - unfold main. pstep. rewrite L. reflexivity.
  - exact (load_config_none j j' L).
Qed.

(** With an accepted object, [main] goes on to the device client. *)
Lemma main_configured text d check_mode j :
  config_file = inl text ->
  json_loads text = inl (PyDict d) ->
  Forall (bound d) required_keys ->
  main check_mode j
  = p_def (create_from_connection_string (connection_string_of d) ;;
           lift (print "Connecting to IoT Hub...") ;;
           connect ;;
           lift (print "Connected!") ;;
           if check_mode then check_communication else serve) j.
Proof.
  intros F E All.
  destruct (required_keys_bound d All) as (H1 & H2 & H3 & H4 & H5).
  unfold main. pstep.
  rewrite (load_config_complete text d j F E All). pstep.
  rewrite (get_connection_string_object d j H1 H2 H3). pstep.
  rewrite (lift_getitem_object _ _ _ j (bound_some _ _ H4)).
  rewrite (lift_getitem_object _ _ _ j (bound_some _ _ H5)).
  reflexivity.
Qed.

Lemma main_connected text d check_mode j :
  config_file = inl text ->
  json_loads text = inl (PyDict d) ->
  Forall (bound d) required_keys ->
  client_create (connection_string_of d) = None ->
  client_connect (j ++ [ CreateClient (connection_string_of d);
                         Agent (Print "Connecting to IoT Hub...") ]) = None ->
  main check_mode j
  = p_def (if check_mode then check_communication else serve)
      (j ++ [ CreateClient (connection_string_of d);
              Agent (Print "Connecting to IoT Hub...");
              Connect;
              Agent (Print "Connected!") ]).
Proof.
  intros F E All Hcreate Hconnect.
  rewrite (main_configured text d check_mode j F E All).
  unfold create_from_connection_string, connect. pstep.
  rewrite Hcreate, lift_print, <- app_assoc. cbn [app].
  rewrite Hconnect, lift_print, <- !app_assoc. cbn [app].
  reflexivity.
Qed.

Lemma lift_send payload j :
  lift (send_message payload) j
  = match transport_send (agent_history j) payload with
    | None => (j ++ [Agent (SendMessage payload)], Done tt)
    | Some err => (j ++ [Agent (SendMessage payload)], Fault (PyExn (TransportError err)))
    end.
Proof.
  destruct (transport_send (agent_history j) payload) as [err |] eqn:T.
  - rewrite (lift_appends _ j [SendMessage payload] (Raised (TransportError err)));
      [reflexivity |].
    unfold send_message. now rewrite T.
  - rewrite (lift_appends _ j [SendMessage payload] (Normal tt)); [reflexivity |].
    unfold send_message. now rewrite T.
Qed.

(** Lines 174-184 up to the [finally]. *)
Lemma check_communication_run j :
  let started := j ++ [Agent (Print "Check mode: Sending a test message...")] in
  check_communication j
  = match transport_send (agent_history started) test_payload with
    | None =>
        let sent :=
          started ++ [ Agent (SendMessage test_payload);
                       Agent (Print "Check mode: Communication test successful. Test message sent.") ] in
        match client_disconnect sent with
        | None => (sent ++ [Disconnect], Exit 0)
        | Some msg => (sent ++ [Disconnect], Fault (LibraryExn msg))
        end
    | Some err =>
        let failed :=
          started ++ [ Agent (SendMessage test_payload);
                       Agent (Print ("Check mode: Communication test failed. Could not send test message: "
                                       ++ err)) ] in
        match client_disconnect failed with
        | None => (failed ++ [Disconnect], Exit 1)
        | Some msg => (failed ++ [Disconnect], Fault (LibraryExn msg))
        end
    end.
Proof.
  intros started. unfold check_communication. pstep.
  rewrite lift_print. fold started. rewrite lift_send.
  destruct (transport_send (agent_history started) test_payload) as [err |].
  - rewrite lift_print, <- app_assoc. cbn [app fault_text]. unfold disconnect.
    destruct (client_disconnect _); reflexivity.
  - rewrite lift_print, <- app_assoc. cbn [app]. unfold disconnect.
    destruct (client_disconnect _); reflexivity.
Qed.

(** X8.  In check mode, once the configuration is accepted and the
    client is connected, exactly one message, the test payload, is
    handed to the transport and the client is disconnected after it;
    the exit code is 0 when the transport took the message and 1 when
    [send_message] raised, whose text is printed.  No handler is set
    and no heartbeat is started. *)
Theorem check_mode_exit_code_reports_the_send :
  forall (text : string) (d : list (string * pyobj)) (j : journal),
    config_file = inl text ->
    json_loads text = inl (PyDict d) ->
    Forall (bound d) required_keys ->
    client_create (connection_string_of d) = None ->
    client_connect (j ++ [ CreateClient (connection_string_of d);
                           Agent (Print "Connecting to IoT Hub...") ]) = None ->
    (forall j', client_disconnect j' = None) ->
    let started :=
      j ++ [ CreateClient (connection_string_of d);
             Agent (Print "Connecting to IoT Hub...");
             Connect;
             Agent (Print "Connected!");
             Agent (Print "Check mode: Sending a test message...") ] in
    main true j
    = match transport_send (agent_history started) test_payload with
      | None =>
          (started ++ [ Agent (SendMessage test_payload);
                        Agent (Print "Check mode: Communication test successful. Test message sent.");
                        Disconnect ],
           Exit 0)
      | Some err =>
          (started ++ [ Agent (SendMessage test_payload);
                        Agent (Print ("Check mode: Communication test failed. Could not send test message: "
                                        ++ err));
                        Disconnect ],
           Exit 1)
      end.
Proof.
  intros text d j F E All Hcreate Hconnect Hdisconnect started.
  rewrite (main_connected text d true j F E All Hcreate Hconnect).
  unfold p_def. rewrite check_communication_run.
  rewrite <- app_assoc. cbn [app]. fold started.
  destruct (transport_send (agent_history started) test_payload);
    cbv zeta; rewrite Hdisconnect, <- app_assoc; reflexivity.
Qed.

(** X9.  The [exit] of check mode stands behind the [disconnect] in
    the [finally] block: when [disconnect] raises, [main] ends in that
    exception and gives no exit code, whether the test message went
    out or not. *)
Theorem check_mode_disconnect_failure_hides_exit_code :
  forall (text : string) (d : list (string * pyobj)) (msg : string) (j : journal),
    config_file = inl text ->
    json_loads text = inl (PyDict d) ->
    Forall (bound d) required_keys ->
    client_create (connection_string_of d) = None ->
    client_connect (j ++ [ CreateClient (connection_string_of d);
                           Agent (Print "Connecting to IoT Hub...") ]) = None ->
    (forall j', client_disconnect j' = Some msg) ->
    exists line,
      main true j
      = (j ++ [ CreateClient (connection_string_of d);
                Agent (Print "Connecting to IoT Hub...");
                Connect;
                Agent (Print "Connected!");
                Agent (Print "Check mode: Sending a test message...");
                Agent (SendMessage test_payload);
                Agent (Print line);
                Disconnect ],
         Fault (LibraryExn msg)).
Proof.
  intros text d msg j F E All Hcreate Hconnect Hdisconnect.
  rewrite (main_connected text d true j F E All Hcreate Hconnect).
  unfold p_def. rewrite check_communication_run.
  rewrite <- app_assoc. cbn [app].
  destruct (transport_send _ test_payload);
    cbv zeta; rewrite Hdisconnect, <- !app_assoc; cbn [app]; eexists; reflexivity.
Qed.

(** X10.  In normal mode, once the configuration is accepted and the
    client is connected, [main] sets the message handler, starts the
    heartbeat task and then waits on an event that nothing sets: it
    neither returns nor exits, and it sends nothing itself. *)
Theorem normal_mode_serves_forever :
  forall (text : string) (d : list (string * pyobj)) (j : journal),
    config_file = inl text ->
    json_loads text = inl (PyDict d) ->
    Forall (bound d) required_keys ->
    client_create (connection_string_of d) = None ->
    client_connect (j ++ [ CreateClient (connection_string_of d);
                           Agent (Print "Connecting to IoT Hub...") ]) = None ->
    main false j
    = (j ++ [ CreateClient (connection_string_of d);
              Agent (Print "Connecting to IoT Hub...");
              Connect;
              Agent (Print "Connected!");
              SetHandler;
              CreateTask ],
       Waiting)
    /\ sent_payloads (agent_history (fst (main false j)))
       = sent_payloads (agent_history j).
Proof.
  intros text d j F E All Hcreate Hconnect.
  assert (R : main false j
              = (j ++ [ CreateClient (connection_string_of d);
                        Agent (Print "Connecting to IoT Hub...");
                        Connect; Agent (Print "Connected!");
                        SetHandler; CreateTask ], Waiting)).
  { rewrite (main_connected text d false j F E All Hcreate Hconnect).
    unfold serve. pstep. rewrite <- !app_assoc. reflexivity. }
  split; [exact R |].
  rewrite R. cbn [fst]. rewrite agent_history_app, sent_payloads_app. cbn.
  apply app_nil_r.
Qed.

(** X11.  A device client that cannot be created or connected ends
    [main] in the library's exception, in either mode: nothing
    catches it, the test message is not sent, no handler is set and
    [disconnect] is not called. *)
Theorem client_failure_ends_startup :
  forall (text : string) (d : list (string * pyobj)) (msg : string)
         (check_mode : bool) (j : journal),
    config_file = inl text ->
    json_loads text = inl (PyDict d) ->
    Forall (bound d) required_keys ->
    (client_create (connection_string_of d) = Some msg ->
     main check_mode j = (j, Fault (LibraryExn msg)))
    /\ (client_create (connection_string_of d) = None ->
        client_connect (j ++ [ CreateClient (connection_string_of d);
                               Agent (Print "Connecting to IoT Hub...") ]) = Some msg ->
        main check_mode j
        = (j ++ [ CreateClient (connection_string_of d);
                  Agent (Print "Connecting to IoT Hub...");
                  Connect ],
           Fault (LibraryExn msg))).
Proof.
  intros text d msg check_mode j F E All. split.
  - intros Hcreate. rewrite (main_configured text d check_mode j F E All).
    unfold create_from_connection_string. pstep. now rewrite Hcreate.
  - intros Hcreate Hconnect. rewrite (main_configured text d check_mode j F E All).
    unfold create_from_connection_string, connect. pstep.
    rewrite Hcreate, lift_print, <- app_assoc. cbn [app].
    rewrite Hconnect, <- !app_assoc. reflexivity.
Qed.

End StartupFacts.

(** ** The agent: further properties *)

Section AgentEdges.

Context {RT : Runtime}.

(** *** The dispatch loop on any message *)

Lemma message_handler_decoded data v h :
  json_loads data = inl v ->
  message_handler data h
  = py_def (present <- py_contains "commands" v ;;
            if present : bool then
              commands <- py_getitem v "commands" ;;
              post_id <- py_get v "post_id" PyNone ;;
              interpreter_delimiter <-
                py_get v "interpreter_delimiter" (PyStr Text.nl) ;;
              print "Running commands" ;;
              emit (Submit (Task commands post_id None None interpreter_delimiter))
            else ret tt)
      (h ++ [Print ("Received message: " ++ data)]).
Proof.
  intros E. unfold message_handler, py_json_loads. step. rewrite E. reflexivity.
Qed.

(** X12.  A message whose body is json but no object is never run.
    [null], booleans and numbers make the handler raise [TypeError] at
    the membership test; an array or a text is searched for
    [commands], as an element or as a substring: when it is found the
    handler raises [TypeError] at the subscript of line 70, otherwise
    the message is ignored.  Only the receipt is printed in each
    case. *)
Theorem message_that_is_no_object_is_never_run :
  forall (data : string) (v : pyobj) (h : history),
    json_loads data = inl v ->
    (forall d, v <> PyDict d) ->
    message_handler data h
    = (h ++ [Print ("Received message: " ++ data)],
       match v with
       | PyList l =>
           if existsb (Py.is_str "commands") l
           then Raised (TypeError "list indices must be integers or slices, not str")
           else Normal PyNone
       | PyStr s =>
           if Text.contains "commands" s
           then Raised (TypeError "string indices must be integers, not 'str'")
           else Normal PyNone
       | _ =>
           Raised (TypeError ("argument of type '" ++ Py.type_name v
                                ++ "' is not iterable"))
       end).
Proof.
  intros data v h E NoObject. rewrite (message_handler_decoded data v h E).
  destruct v; try reflexivity.
  - unfold py_contains. step.
    destruct (Text.contains "commands" s); reflexivity.
  - unfold py_contains. step.
    destruct (existsb (Py.is_str "commands") l); reflexivity.
  - now destruct (NoObject d).
Qed.

(** X13.  Whatever the message, the handler leaves the transport, the
    shell and HTTP alone: besides the receipt it prints, it adds to
    the history at most the line [Running commands] and one submitted
    task, and a task it submits carries neither an engine host nor an
    interpreter. *)
Theorem message_handler_only_prints_and_submits :
  forall (data : string) (h : history),
    (exists o,
        message_handler data h
        = (h ++ [Print ("Received message: " ++ data)], o))
    \/ (exists commands post_id delimiter,
          message_handler data h
          = (h ++ [ Print ("Received message: " ++ data);
                    Print "Running commands";
                    Submit (Task commands post_id None None delimiter) ],
             Normal PyNone)).
Proof.
  intros data h.
  destruct (json_loads data) as [v | msg] eqn:E.
  - destruct v;
      try (left; eexists; rewrite (message_handler_decoded data _ h E);
           reflexivity).
    + left. rewrite (message_handler_decoded data _ h E).
      unfold py_contains. step.
      destruct (Text.contains "commands" s); eexists; reflexivity.
    + left. rewrite (message_handler_decoded data _ h E).
      unfold py_contains. step.
      destruct (existsb (Py.is_str "commands") l); eexists; reflexivity.
    + destruct (Py.lookup "commands" d) as [c |] eqn:C.
      * right. do 3 eexists.
        apply (message_handler_submits data d c h E C).
      * left. eexists. rewrite (message_handler_decoded data _ h E).
        unfold py_contains. step. rewrite C. reflexivity.
  - left. eexists. unfold message_handler, py_json_loads. step.
    rewrite E. reflexivity.
Qed.

(** *** What a submitted task comes to *)

Lemma callback_url_run post_id rewst_engine_host h :
  callback_url post_id rewst_engine_host h
  = (h,
     if Py.truthy post_id then
       match post_id with
       | PyStr s =>
           Normal (Some ("https://" ++ Py.format_opt rewst_engine_host
                           ++ "/webhooks/custom/action/"
                           ++ Text.replace_char ":" "/" s)%string)
       | _ =>
           Raised (AttributeError ("'" ++ Py.type_name post_id
                                     ++ "' object has no attribute 'replace'"))
       end
     else Normal None).
Proof.
  unfold callback_url. destruct (Py.truthy post_id); [| reflexivity].
  destruct post_id; reflexivity.
Qed.

Lemma execute_commands_run commands post_url interpreter_override delim h :
  execute_commands commands post_url interpreter_override delim h
  = (h,
     Raised
       (if Text.contains "powershell" (resolve_interpreter os_type interpreter_override)
           && negb (is_text commands)
        then TypeError ("can only concatenate str (not " ++ Text.dquote
                          ++ Py.type_name commands ++ Text.dquote ++ ") to str")
        else NameError "all_commands")).
Proof.
  unfold execute_commands, prepare_command, prepend_preamble.
  destruct (Text.contains "powershell" _); destruct commands; reflexivity.
Qed.

(** X14.  Every call of [handle_commands] ends in an exception and
    leaves the history as it was.  A [post_id] that is true and no
    text is met first, with the [AttributeError] of line 143; then,
    under a PowerShell interpreter, a [commands] that is no text, with
    the [TypeError] of line 100; in every other case the call ends in
    the [NameError] of line 109.  [run_handle_commands] passes the
    same exception on to the worker. *)
Theorem handle_commands_error_precedence :
  forall (commands post_id : pyobj) (rewst_engine_host interpreter_override : option string)
         (delim : pyobj) (h : history),
    let e :=
      if Py.truthy post_id && negb (is_text post_id)
      then AttributeError ("'" ++ Py.type_name post_id
                             ++ "' object has no attribute 'replace'")
      else if Text.contains "powershell"
                (resolve_interpreter os_type interpreter_override)
              && negb (is_text commands)
      then TypeError ("can only concatenate str (not " ++ Text.dquote
                        ++ Py.type_name commands ++ Text.dquote ++ ") to str")
      else NameError "all_commands" in
    handle_commands commands post_id rewst_engine_host interpreter_override delim h
    = (h, Raised e)
    /\ run_handle_commands commands post_id rewst_engine_host interpreter_override
         delim h
       = (h, Raised e).
Proof.
  intros commands post_id host interpreter_override delim h e.
  assert (R : handle_commands commands post_id host interpreter_override delim h
              = (h, Raised e)).
  { unfold handle_commands, py_def, bind. rewrite callback_url_run. subst e.
    destruct (Py.truthy post_id); cbn [andb].
    - destruct post_id; cbn [is_text negb]; try reflexivity.
      now rewrite execute_commands_run.
    - now rewrite execute_commands_run. }
  split; [exact R |].
  unfold run_handle_commands, py_def, bind. now rewrite R.
Qed.

(** *** The callback URL *)

Lemma replace_char_length old new s :
  String.length (Text.replace_char old new s) = String.length s.
Proof. induction s as [| c rest IH]; cbn; now rewrite ?IH. Qed.

Lemma replace_char_absent old new s :
  Text.contains (String old EmptyString) s = false ->
  Text.replace_char old new s = s.
Proof.
  induction s as [| c rest IH]; [reflexivity |].
  cbn [Text.contains prefix Text.replace_char]. intros H.
  apply orb_false_iff in H. destruct H as [Hhead Hrest].
  rewrite (IH Hrest).
  destruct (Ascii.eqb_spec c old) as [-> | N]; [| reflexivity].
  destruct (ascii_dec old old) as [_ | N]; [| contradiction].
  destruct rest; discriminate Hhead.
Qed.

(** X15.  Lines 142-144 build no URL for a [post_id] that is false
    ([None], the empty text, zero, an empty container).  For a
    non-empty text they build
    [https://<host>/webhooks/custom/action/<path>], where the path has
    the length of the [post_id], holds no colon, and is the [post_id]
    itself when that holds no colon. *)
Theorem callback_url_path :
  (forall post_id rewst_engine_host h,
      Py.truthy post_id = false ->
      callback_url post_id rewst_engine_host h = (h, Normal None))
  /\ (forall s rewst_engine_host h,
        s <> "" ->
        exists path,
          callback_url (PyStr s) rewst_engine_host h
          = (h, Normal (Some ("https://" ++ Py.format_opt rewst_engine_host
                                ++ "/webhooks/custom/action/" ++ path)%string))
          /\ String.length path = String.length s
          /\ Text.contains ":" path = false
          /\ (Text.contains ":" s = false -> path = s)).
Proof.
  split.
  - intros post_id host h F. rewrite callback_url_run. now rewrite F.
  - intros s host h N. exists (Text.replace_char ":" "/" s).
    split; [apply callback_url_text; exact N |].
    split; [apply replace_char_length |].
    split; [apply replace_char_removes; discriminate |].
    apply replace_char_absent.
Qed.

(** *** The heartbeat while the transport is up *)

(** X17.  While the transport takes every payload, [n] turns of the
    heartbeat loop send [n] status updates and sleep [n] times, each
    time for 600 seconds, and the loop has not ended. *)
Theorem heartbeat_keeps_its_interval :
  (forall h p, transport_send h p = None) ->
  forall (n : nat) (h : history),
    exists added,
      status_update_task n h = (h ++ added, Normal tt)
      /\ length (sent_payloads added) = n
      /\ filter is_sleep added = repeat (Sleep 600) n.
Proof.
  intros Up n. induction n as [| n IH]; intros h.
  - exists []. cbn. now rewrite app_nil_r.
  - rewrite status_update_task_turn_ok by apply Up.
    destruct (IH (h ++ [ sending; SendMessage (status_payload h);
                         Print "Status update sent!"; Sleep 600 ]))
      as (added & E & Hsent & Hsleep).
    exists ([ sending; SendMessage (status_payload h);
              Print "Status update sent!"; Sleep 600 ] ++ added).
    rewrite E, <- app_assoc. split; [reflexivity |].
    rewrite sent_payloads_app, filter_app, Hsleep, length_app, Hsent.
    split; reflexivity.
Qed.

(** *** The interpreter and the statements after the [return] *)

(** X19.  The interpreter is never the empty text, on any platform
    and with any override, so the command line of lines 105 and 109
    always starts with the name of a program. *)
Theorem resolved_interpreter_is_not_empty :
  forall (os : string) (interpreter_override : option string),
    resolve_interpreter os interpreter_override <> "".
Proof.
  intros os interpreter_override.
  assert (D : default_interpreter os <> "").
  { unfold default_interpreter.
    destruct (String.eqb os "windows"); [discriminate |].
    destruct (String.eqb os "darwin"); discriminate. }
  unfold resolve_interpreter, Py.or_else.
  destruct interpreter_override as [s |]; [| exact D].
  destruct (String.eqb_spec s ""); [exact D | assumption].
Qed.

(** The statements that follow the [return] of line 120 could not
    post a result even if they were reached: they read
    [command_output], which [execute_commands] never assigns, so they
    end in [NameError], which the [except] of line 125 does not catch,
    before anything is printed or posted. *)
Lemma statements_after_return_cannot_post :
  forall (interpreter : string) (post_url : option string) (h : history),
    post_command_output interpreter post_url h
    = (h, Raised (NameError "command_output")).
Proof. reflexivity. Qed.

End AgentEdges.

(** ** The further properties on concrete runs *)

Lemma config_fields_complete : Forall (bound config_fields) required_keys.
Proof. unfold required_keys. repeat constructor; discriminate. Qed.

Lemma load_config_accepts_complete_objects_witness :
  @config_file good_host = inl config_text
  /\ ExampleJson.loads config_text = inl (PyDict config_fields)
  /\ (@load_config good_host [] = ([], Done (PyDict config_fields))
      <-> Forall (bound config_fields) required_keys).
Proof.
  split; [reflexivity |]. split; [reflexivity |].
  exact (@load_config_accepts_complete_objects good_host config_text config_fields []
           eq_refl eq_refl).
Defined.

Lemma load_config_reports_first_missing_key_witness :
  required_keys
  = ["azure_iot_hub_host"]
      ++ "device_id" :: ["shared_access_key"; "rewst_engine_host"; "rewst_org_id"]
  /\ Forall (bound incomplete_fields) ["azure_iot_hub_host"]
  /\ Py.lookup "device_id" incomplete_fields = None
  /\ @load_config incomplete_host []
     = ([LogError "Error: Missing 'device_id' in configuration."], Done PyNone).
Proof.
  split; [reflexivity |].
  assert (B : Forall (bound incomplete_fields) ["azure_iot_hub_host"])
    by (repeat constructor; discriminate).
  split; [exact B |]. split; [reflexivity |].
  exact (@load_config_reports_first_missing_key incomplete_host
           (ExampleJson.dumps (PyDict incomplete_fields)) incomplete_fields
           ["azure_iot_hub_host"] "device_id"
           ["shared_access_key"; "rewst_engine_host"; "rewst_org_id"] []
           eq_refl eq_refl eq_refl B eq_refl).
Defined.

Lemma load_config_survives_unreadable_file_witness :
  @config_file missing_file_host
  = inr "[Errno 2] No such file or directory: 'config.json'"
  /\ @load_config missing_file_host []
     = ([LogError "Error: [Errno 2] No such file or directory: 'config.json'"],
        Done PyNone).
Proof.
  split; [reflexivity |].
  exact (@load_config_survives_unreadable_file missing_file_host
           "[Errno 2] No such file or directory: 'config.json'" []
           (or_introl eq_refl)).
Defined.

Lemma load_config_raises_on_scalar_json_witness :
  ExampleJson.loads "null" = inl PyNone
  /\ scalar PyNone = true
  /\ @load_config null_host []
     = ([], Fault (PyExn (TypeError "argument of type 'NoneType' is not iterable"))).
Proof.
  split; [reflexivity |]. split; [reflexivity |].
  exact (@load_config_raises_on_scalar_json null_host "null" PyNone []
           eq_refl eq_refl eq_refl).
Defined.

Lemma accepted_object_gives_connection_string_witness :
  Forall (bound config_fields) required_keys
  /\ exists host device key,
       Py.lookup "azure_iot_hub_host" config_fields = Some host
       /\ Py.lookup "device_id" config_fields = Some device
       /\ Py.lookup "shared_access_key" config_fields = Some key
       /\ pbind (@load_config good_host) (@get_connection_string good_host) []
          = ([], Done (PyStr (String.append "HostName="
                     (String.append (@py_str linux_runtime host)
                     (String.append ";DeviceId="
                     (String.append (@py_str linux_runtime device)
                     (String.append ";SharedAccessKey="
                                    (@py_str linux_runtime key)))))))).
Proof.
  split; [exact config_fields_complete |].
  exact (@accepted_object_gives_connection_string good_host config_text config_fields []
           eq_refl eq_refl config_fields_complete).
Defined.

Lemma array_of_key_names_passes_validation_witness :
  ExampleJson.loads (ExampleJson.dumps (PyList key_names)) = inl (PyList key_names)
  /\ @load_config array_host [] = ([], Done (PyList key_names))
  /\ @main array_host true []
     = ([], Fault (PyExn (TypeError "list indices must be integers or slices, not str"))).
Proof.
  split; [reflexivity |].
  refine (@array_of_key_names_passes_validation array_host
            (ExampleJson.dumps (PyList key_names)) key_names true []
            eq_refl eq_refl _).
  intros k Hk. unfold required_keys in Hk. cbn in Hk.
  repeat (destruct Hk as [<- | Hk]; [reflexivity |]). contradiction.
Defined.

Lemma main_exits_1_without_configuration_witness :
  @load_config incomplete_host []
  = ([LogError "Error: Missing 'device_id' in configuration."], Done PyNone)
  /\ @main incomplete_host false []
     = ([LogError "Error: Missing 'device_id' in configuration."], Exit 1).
Proof.
  split; [reflexivity |].
  exact (proj1 (@main_exits_1_without_configuration incomplete_host false []
                  [LogError "Error: Missing 'device_id' in configuration."] eq_refl)).
Defined.

Lemma check_mode_exit_code_reports_the_send_witness :
  Forall (bound config_fields) required_keys
  /\ @main good_host true []
     = ([ CreateClient good_connection_string;
          Agent (Print "Connecting to IoT Hub...");
          Connect;
          Agent (Print "Connected!");
          Agent (Print "Check mode: Sending a test message...");
          Agent (SendMessage (@test_payload good_host));
          Agent (Print "Check mode: Communication test successful. Test message sent.");
          Disconnect ],
        Exit 0).
Proof.
  split; [exact config_fields_complete |].
  exact (@check_mode_exit_code_reports_the_send good_host config_text config_fields []
           eq_refl eq_refl config_fields_complete eq_refl eq_refl
           (fun _ => eq_refl)).
Defined.

Lemma check_mode_disconnect_failure_hides_exit_code_witness :
  Forall (bound config_fields) required_keys
  /\ exists line,
       @main stuck_host true []
       = ([ CreateClient good_connection_string;
            Agent (Print "Connecting to IoT Hub...");
            Connect;
            Agent (Print "Connected!");
            Agent (Print "Check mode: Sending a test message...");
            Agent (SendMessage (@test_payload stuck_host));
            Agent (Print line);
            Disconnect ],
          Fault (LibraryExn "disconnect timed out")).
Proof.
  split; [exact config_fields_complete |].
  exact (@check_mode_disconnect_failure_hides_exit_code stuck_host config_text
           config_fields "disconnect timed out" []
           eq_refl eq_refl config_fields_complete eq_refl eq_refl
           (fun _ => eq_refl)).
Defined.

Lemma normal_mode_serves_forever_witness :
  Forall (bound config_fields) required_keys
  /\ @main good_host false []
     = ([ CreateClient good_connection_string;
          Agent (Print "Connecting to IoT Hub...");
          Connect;
          Agent (Print "Connected!");
          SetHandler;
          CreateTask ],
        Waiting)
  /\ sent_payloads (agent_history (fst (@main good_host false []))) = [].
Proof.
  split; [exact config_fields_complete |].
  exact (@normal_mode_serves_forever good_host config_text config_fields []
           eq_refl eq_refl config_fields_complete eq_refl eq_refl).
Defined.

Lemma client_failure_ends_startup_witness :
  @main refused_host true [] = ([], Fault (LibraryExn "Invalid Connection String"))
  /\ @main unreachable_host false []
     = ([ CreateClient good_connection_string;
          Agent (Print "Connecting to IoT Hub...");
          Connect ],
        Fault (LibraryExn "connection refused")).
Proof.
  split.
  - exact (proj1 (@client_failure_ends_startup refused_host config_text config_fields
                    "Invalid Connection String" true []
                    eq_refl eq_refl config_fields_complete) eq_refl).
  - exact (proj2 (@client_failure_ends_startup unreachable_host config_text config_fields
                    "connection refused" false []
                    eq_refl eq_refl config_fields_complete) eq_refl eq_refl).
Defined.

Lemma message_that_is_no_object_is_never_run_witness :
  ExampleJson.loads (ExampleJson.dumps (PyList [PyStr "commands"]))
  = inl (PyList [PyStr "commands"])
  /\ (forall d, PyList [PyStr "commands"] <> PyDict d)
  /\ @message_handler linux_runtime (ExampleJson.dumps (PyList [PyStr "commands"])) []
     = ([Print (String.append "Received message: "
                  (ExampleJson.dumps (PyList [PyStr "commands"])))],
        Raised (TypeError "list indices must be integers or slices, not str")).
Proof.
  split; [reflexivity |].
  assert (N : forall d, PyList [PyStr "commands"] <> PyDict d) by discriminate.
  split; [exact N |].
  exact (@message_that_is_no_object_is_never_run linux_runtime
           (ExampleJson.dumps (PyList [PyStr "commands"])) (PyList [PyStr "commands"]) []
           eq_refl N).
Defined.

Lemma callback_url_path_witness :
  callback_url (PyStr "") (Some "h.example.com") [] = ([], Normal None)
  /\ exists path,
       callback_url (PyStr "abc:123") None []
       = ([], Normal (Some (String.append "https://None/webhooks/custom/action/" path)))
       /\ String.length path = 7
       /\ Text.contains ":" path = false
       /\ (Text.contains ":" "abc:123" = false -> path = "abc:123").
Proof.
  split.
  - exact (proj1 callback_url_path (PyStr "") (Some "h.example.com") [] eq_refl).
  - refine (proj2 callback_url_path "abc:123" None [] _). discriminate.
Defined.

Lemma heartbeat_keeps_its_interval_witness :
  (forall h p, @transport_send linux_runtime h p = None)
  /\ exists added,
       @status_update_task linux_runtime 2 [] = ([] ++ added, Normal tt)
       /\ length (sent_payloads added) = 2
       /\ filter is_sleep added = [Sleep 600; Sleep 600].
Proof.
  split; [reflexivity |].
  exact (@heartbeat_keeps_its_interval linux_runtime (fun _ _ => eq_refl) 2 []).
Defined.
